(** * GeoFlow: keyword classifier and localized reply renderer

    A shallow embedding of [main.py]: the alias table, the translation
    tables, [generate_reply], [find_location_from_coords], [handle_query],
    [handle_location_query] and [get_report], with the Python built-ins
    they rest on ([in], [str.lower], [str.strip], [str.format], [any],
    dictionary subscription).

    Text is a [string] holding the UTF-8 bytes of the Python [str].  A
    substring test on the bytes of well-formed UTF-8 agrees with the test
    on code points.  [lower] and [strip] follow the Unicode character data
    as [str.lower()] and [str.strip()] do. *)

From Stdlib Require Import Bool List Ascii String ZArith NArith Lia DecimalString.
Import ListNotations.
Open Scope string_scope.

(** ** Unicode text

    The code points of a text, their UTF-8 form, and the character data
    that [str.lower()] and [str.strip()] consult: the tables of the Unicode
    Character Database 14.0, which CPython 3.11 carries. *)

Module Unicode.

Local Open Scope N_scope.

Definition byte (c : ascii) : N := N_of_ascii c.

(** A continuation byte, 10xxxxxx. *)
Definition continuation (b : N) : bool := (128 <=? b) && (b <? 192).

(** A byte outside any well-formed sequence is kept apart, in the range
    U+DC80-U+DCFF that no text in UTF-8 uses. *)
Definition stray (b : N) : N := 56320 + b.

(** The code points of a text in UTF-8. *)
Fixpoint decode (s : string) : list N :=
  match s with
  | EmptyString => []
  | String c0 s1 =>
      let b0 := byte c0 in
      if b0 <? 128 then b0 :: decode s1
      else
        match s1 with
        | EmptyString => [stray b0]
        | String c1 s2 =>
            let b1 := byte c1 in
            if (192 <=? b0) && (b0 <? 224) && continuation b1 then
              ((b0 - 192) * 64 + (b1 - 128)) :: decode s2
            else
              match s2 with
              | EmptyString => stray b0 :: decode s1
              | String c2 s3 =>
                  let b2 := byte c2 in
                  if (224 <=? b0) && (b0 <? 240) && continuation b1 && continuation b2
                  then ((b0 - 224) * 4096 + (b1 - 128) * 64 + (b2 - 128)) :: decode s3
                  else
                    match s3 with
                    | EmptyString => stray b0 :: decode s1
                    | String c3 s4 =>
                        let b3 := byte c3 in
                        if (240 <=? b0) && (b0 <? 248) && continuation b1
                           && continuation b2 && continuation b3
                        then ((b0 - 240) * 262144 + (b1 - 128) * 4096
                              + (b2 - 128) * 64 + (b3 - 128)) :: decode s4
                        else stray b0 :: decode s1
                    end
              end
        end
  end.

Definition chr (b : N) : string := String (ascii_of_N b) EmptyString.

(** The UTF-8 form of one code point. *)
Definition encode_char (c : N) : string :=
  if c <? 128 then chr c
  else if c <? 2048 then chr (192 + c / 64) ++ chr (128 + c mod 64)
  else if (56448 <=? c) && (c <=? 56575) then chr (c - 56320)
  else if c <? 65536 then
    chr (224 + c / 4096) ++ chr (128 + (c / 64) mod 64) ++ chr (128 + c mod 64)
  else
    chr (240 + c / 262144) ++ chr (128 + (c / 4096) mod 64)
    ++ chr (128 + (c / 64) mod 64) ++ chr (128 + c mod 64).

Fixpoint encode (l : list N) : string :=
  match l with
  | [] => EmptyString
  | c :: l' => encode_char c ++ encode l'
  end.

Fixpoint in_ranges (ranges : list (N * N)) (c : N) : bool :=
  match ranges with
  | [] => false
  | (first, last) :: rest => ((first <=? c) && (c <=? last)) || in_ranges rest c
  end.

(** The simple lowercase mappings above U+007F, in runs: the code points
    [first], [first + step], ... up to [last] map to [lower_of_first],
    [lower_of_first + step], ...  U+0130 is apart: it is the one code point
    whose lowercase form has two code points. *)
Definition lowercase_runs : list (N * N * N * N) :=
  [
   (192, 214, 1, 224); (216, 222, 1, 248); (256, 302, 2, 257);
   (306, 310, 2, 307); (313, 327, 2, 314); (330, 374, 2, 331);
   (376, 376, 1, 255); (377, 381, 2, 378); (385, 385, 1, 595);
   (386, 388, 2, 387); (390, 390, 1, 596); (391, 391, 1, 392);
   (393, 394, 1, 598); (395, 395, 1, 396); (398, 398, 1, 477);
   (399, 399, 1, 601); (400, 400, 1, 603); (401, 401, 1, 402);
   (403, 403, 1, 608); (404, 404, 1, 611); (406, 406, 1, 617);
   (407, 407, 1, 616); (408, 408, 1, 409); (412, 412, 1, 623);
   (413, 413, 1, 626); (415, 415, 1, 629); (416, 420, 2, 417);
   (422, 422, 1, 640); (423, 423, 1, 424); (425, 425, 1, 643);
   (428, 428, 1, 429); (430, 430, 1, 648); (431, 431, 1, 432);
   (433, 434, 1, 650); (435, 437, 2, 436); (439, 439, 1, 658);
   (440, 440, 1, 441); (444, 444, 1, 445); (452, 452, 1, 454);
   (453, 453, 1, 454); (455, 455, 1, 457); (456, 456, 1, 457);
   (458, 458, 1, 460); (459, 475, 2, 460); (478, 494, 2, 479);
   (497, 497, 1, 499); (498, 500, 2, 499); (502, 502, 1, 405);
   (503, 503, 1, 447); (504, 542, 2, 505); (544, 544, 1, 414);
   (546, 562, 2, 547); (570, 570, 1, 11365); (571, 571, 1, 572);
   (573, 573, 1, 410); (574, 574, 1, 11366); (577, 577, 1, 578);
   (579, 579, 1, 384); (580, 580, 1, 649); (581, 581, 1, 652);
   (582, 590, 2, 583); (880, 882, 2, 881); (886, 886, 1, 887);
   (895, 895, 1, 1011); (902, 902, 1, 940); (904, 906, 1, 941);
   (908, 908, 1, 972); (910, 911, 1, 973); (913, 929, 1, 945);
   (931, 939, 1, 963); (975, 975, 1, 983); (984, 1006, 2, 985);
   (1012, 1012, 1, 952); (1015, 1015, 1, 1016); (1017, 1017, 1, 1010);
   (1018, 1018, 1, 1019); (1021, 1023, 1, 891); (1024, 1039, 1, 1104);
   (1040, 1071, 1, 1072); (1120, 1152, 2, 1121); (1162, 1214, 2, 1163);
   (1216, 1216, 1, 1231); (1217, 1229, 2, 1218); (1232, 1326, 2, 1233);
   (1329, 1366, 1, 1377); (4256, 4293, 1, 11520); (4295, 4295, 1, 11559);
   (4301, 4301, 1, 11565); (5024, 5103, 1, 43888); (5104, 5109, 1, 5112);
   (7312, 7354, 1, 4304); (7357, 7359, 1, 4349); (7680, 7828, 2, 7681);
   (7838, 7838, 1, 223); (7840, 7934, 2, 7841); (7944, 7951, 1, 7936);
   (7960, 7965, 1, 7952); (7976, 7983, 1, 7968); (7992, 7999, 1, 7984);
   (8008, 8013, 1, 8000); (8025, 8031, 2, 8017); (8040, 8047, 1, 8032);
   (8072, 8079, 1, 8064); (8088, 8095, 1, 8080); (8104, 8111, 1, 8096);
   (8120, 8121, 1, 8112); (8122, 8123, 1, 8048); (8124, 8124, 1, 8115);
   (8136, 8139, 1, 8050); (8140, 8140, 1, 8131); (8152, 8153, 1, 8144);
   (8154, 8155, 1, 8054); (8168, 8169, 1, 8160); (8170, 8171, 1, 8058);
   (8172, 8172, 1, 8165); (8184, 8185, 1, 8056); (8186, 8187, 1, 8060);
   (8188, 8188, 1, 8179); (8486, 8486, 1, 969); (8490, 8490, 1, 107);
   (8491, 8491, 1, 229); (8498, 8498, 1, 8526); (8544, 8559, 1, 8560);
   (8579, 8579, 1, 8580); (9398, 9423, 1, 9424); (11264, 11311, 1, 11312);
   (11360, 11360, 1, 11361); (11362, 11362, 1, 619); (11363, 11363, 1, 7549);
   (11364, 11364, 1, 637); (11367, 11371, 2, 11368); (11373, 11373, 1, 593);
   (11374, 11374, 1, 625); (11375, 11375, 1, 592); (11376, 11376, 1, 594);
   (11378, 11378, 1, 11379); (11381, 11381, 1, 11382); (11390, 11391, 1, 575);
   (11392, 11490, 2, 11393); (11499, 11501, 2, 11500); (11506, 11506, 1, 11507);
   (42560, 42604, 2, 42561); (42624, 42650, 2, 42625); (42786, 42798, 2, 42787);
   (42802, 42862, 2, 42803); (42873, 42875, 2, 42874); (42877, 42877, 1, 7545);
   (42878, 42886, 2, 42879); (42891, 42891, 1, 42892); (42893, 42893, 1, 613);
   (42896, 42898, 2, 42897); (42902, 42920, 2, 42903); (42922, 42922, 1, 614);
   (42923, 42923, 1, 604); (42924, 42924, 1, 609); (42925, 42925, 1, 620);
   (42926, 42926, 1, 618); (42928, 42928, 1, 670); (42929, 42929, 1, 647);
   (42930, 42930, 1, 669); (42931, 42931, 1, 43859); (42932, 42946, 2, 42933);
   (42948, 42948, 1, 42900); (42949, 42949, 1, 642); (42950, 42950, 1, 7566);
   (42951, 42953, 2, 42952); (42960, 42960, 1, 42961); (42966, 42968, 2, 42967);
   (42997, 42997, 1, 42998); (65313, 65338, 1, 65345); (66560, 66599, 1, 66600);
   (66736, 66771, 1, 66776); (66928, 66938, 1, 66967); (66940, 66954, 1, 66979);
   (66956, 66962, 1, 66995); (66964, 66965, 1, 67003); (68736, 68786, 1, 68800);
   (71840, 71871, 1, 71872); (93760, 93791, 1, 93792); (125184, 125217, 1, 125218)
  ].

Fixpoint lowercase_in (runs : list (N * N * N * N)) (c : N) : option N :=
  match runs with
  | [] => None
  | (first, last, step, lower_of_first) :: rest =>
      if (first <=? c) && (c <=? last) && ((c - first) mod step =? 0)
      then Some (lower_of_first + (c - first))
      else lowercase_in rest c
  end.

(** The lowercase form of one code point, without regard to its context. *)
Definition to_lower_full (c : N) : list N :=
  if c <? 128 then
    if (65 <=? c) && (c <=? 90) then [c + 32] else [c]
  else if c =? 304 then [105; 775]
  else match lowercase_in lowercase_runs c with
       | Some l => [l]
       | None => [c]
       end.

(** The code points with the property Case_Ignorable. *)
Definition case_ignorable_ranges : list (N * N) :=
  [
   (39, 39); (46, 46); (58, 58); (94, 94); (96, 96);
   (168, 168); (173, 173); (175, 175); (180, 180); (183, 184);
   (688, 879); (884, 885); (890, 890); (900, 901); (903, 903);
   (1155, 1161); (1369, 1369); (1375, 1375); (1425, 1469); (1471, 1471);
   (1473, 1474); (1476, 1477); (1479, 1479); (1524, 1524); (1536, 1541);
   (1552, 1562); (1564, 1564); (1600, 1600); (1611, 1631); (1648, 1648);
   (1750, 1757); (1759, 1768); (1770, 1773); (1807, 1807); (1809, 1809);
   (1840, 1866); (1958, 1968); (2027, 2037); (2042, 2042); (2045, 2045);
   (2070, 2093); (2137, 2139); (2184, 2184); (2192, 2193); (2200, 2207);
   (2249, 2306); (2362, 2362); (2364, 2364); (2369, 2376); (2381, 2381);
   (2385, 2391); (2402, 2403); (2417, 2417); (2433, 2433); (2492, 2492);
   (2497, 2500); (2509, 2509); (2530, 2531); (2558, 2558); (2561, 2562);
   (2620, 2620); (2625, 2626); (2631, 2632); (2635, 2637); (2641, 2641);
   (2672, 2673); (2677, 2677); (2689, 2690); (2748, 2748); (2753, 2757);
   (2759, 2760); (2765, 2765); (2786, 2787); (2810, 2815); (2817, 2817);
   (2876, 2876); (2879, 2879); (2881, 2884); (2893, 2893); (2901, 2902);
   (2914, 2915); (2946, 2946); (3008, 3008); (3021, 3021); (3072, 3072);
   (3076, 3076); (3132, 3132); (3134, 3136); (3142, 3144); (3146, 3149);
   (3157, 3158); (3170, 3171); (3201, 3201); (3260, 3260); (3263, 3263);
   (3270, 3270); (3276, 3277); (3298, 3299); (3328, 3329); (3387, 3388);
   (3393, 3396); (3405, 3405); (3426, 3427); (3457, 3457); (3530, 3530);
   (3538, 3540); (3542, 3542); (3633, 3633); (3636, 3642); (3654, 3662);
   (3761, 3761); (3764, 3772); (3782, 3782); (3784, 3789); (3864, 3865);
   (3893, 3893); (3895, 3895); (3897, 3897); (3953, 3966); (3968, 3972);
   (3974, 3975); (3981, 3991); (3993, 4028); (4038, 4038); (4141, 4144);
   (4146, 4151); (4153, 4154); (4157, 4158); (4184, 4185); (4190, 4192);
   (4209, 4212); (4226, 4226); (4229, 4230); (4237, 4237); (4253, 4253);
   (4348, 4348); (4957, 4959); (5906, 5908); (5938, 5939); (5970, 5971);
   (6002, 6003); (6068, 6069); (6071, 6077); (6086, 6086); (6089, 6099);
   (6103, 6103); (6109, 6109); (6155, 6159); (6211, 6211); (6277, 6278);
   (6313, 6313); (6432, 6434); (6439, 6440); (6450, 6450); (6457, 6459);
   (6679, 6680); (6683, 6683); (6742, 6742); (6744, 6750); (6752, 6752);
   (6754, 6754); (6757, 6764); (6771, 6780); (6783, 6783); (6823, 6823);
   (6832, 6862); (6912, 6915); (6964, 6964); (6966, 6970); (6972, 6972);
   (6978, 6978); (7019, 7027); (7040, 7041); (7074, 7077); (7080, 7081);
   (7083, 7085); (7142, 7142); (7144, 7145); (7149, 7149); (7151, 7153);
   (7212, 7219); (7222, 7223); (7288, 7293); (7376, 7378); (7380, 7392);
   (7394, 7400); (7405, 7405); (7412, 7412); (7416, 7417); (7468, 7530);
   (7544, 7544); (7579, 7679); (8125, 8125); (8127, 8129); (8141, 8143);
   (8157, 8159); (8173, 8175); (8189, 8190); (8203, 8207); (8216, 8217);
   (8228, 8228); (8231, 8231); (8234, 8238); (8288, 8292); (8294, 8303);
   (8305, 8305); (8319, 8319); (8336, 8348); (8400, 8432); (11388, 11389);
   (11503, 11505); (11631, 11631); (11647, 11647); (11744, 11775); (11823, 11823);
   (12293, 12293); (12330, 12333); (12337, 12341); (12347, 12347); (12441, 12446);
   (12540, 12542); (40981, 40981); (42232, 42237); (42508, 42508); (42607, 42610);
   (42612, 42621); (42623, 42623); (42652, 42655); (42736, 42737); (42752, 42785);
   (42864, 42864); (42888, 42890); (42994, 42996); (43000, 43001); (43010, 43010);
   (43014, 43014); (43019, 43019); (43045, 43046); (43052, 43052); (43204, 43205);
   (43232, 43249); (43263, 43263); (43302, 43309); (43335, 43345); (43392, 43394);
   (43443, 43443); (43446, 43449); (43452, 43453); (43471, 43471); (43493, 43494);
   (43561, 43566); (43569, 43570); (43573, 43574); (43587, 43587); (43596, 43596);
   (43632, 43632); (43644, 43644); (43696, 43696); (43698, 43700); (43703, 43704);
   (43710, 43711); (43713, 43713); (43741, 43741); (43756, 43757); (43763, 43764);
   (43766, 43766); (43867, 43871); (43881, 43883); (44005, 44005); (44008, 44008);
   (44013, 44013); (64286, 64286); (64434, 64450); (65024, 65039); (65043, 65043);
   (65056, 65071); (65106, 65106); (65109, 65109); (65279, 65279); (65287, 65287);
   (65294, 65294); (65306, 65306); (65342, 65342); (65344, 65344); (65392, 65392);
   (65438, 65439); (65507, 65507); (65529, 65531); (66045, 66045); (66272, 66272);
   (66422, 66426); (67456, 67461); (67463, 67504); (67506, 67514); (68097, 68099);
   (68101, 68102); (68108, 68111); (68152, 68154); (68159, 68159); (68325, 68326);
   (68900, 68903); (69291, 69292); (69446, 69456); (69506, 69509); (69633, 69633);
   (69688, 69702); (69744, 69744); (69747, 69748); (69759, 69761); (69811, 69814);
   (69817, 69818); (69821, 69821); (69826, 69826); (69837, 69837); (69888, 69890);
   (69927, 69931); (69933, 69940); (70003, 70003); (70016, 70017); (70070, 70078);
   (70089, 70092); (70095, 70095); (70191, 70193); (70196, 70196); (70198, 70199);
   (70206, 70206); (70367, 70367); (70371, 70378); (70400, 70401); (70459, 70460);
   (70464, 70464); (70502, 70508); (70512, 70516); (70712, 70719); (70722, 70724);
   (70726, 70726); (70750, 70750); (70835, 70840); (70842, 70842); (70847, 70848);
   (70850, 70851); (71090, 71093); (71100, 71101); (71103, 71104); (71132, 71133);
   (71219, 71226); (71229, 71229); (71231, 71232); (71339, 71339); (71341, 71341);
   (71344, 71349); (71351, 71351); (71453, 71455); (71458, 71461); (71463, 71467);
   (71727, 71735); (71737, 71738); (71995, 71996); (71998, 71998); (72003, 72003);
   (72148, 72151); (72154, 72155); (72160, 72160); (72193, 72202); (72243, 72248);
   (72251, 72254); (72263, 72263); (72273, 72278); (72281, 72283); (72330, 72342);
   (72344, 72345); (72752, 72758); (72760, 72765); (72767, 72767); (72850, 72871);
   (72874, 72880); (72882, 72883); (72885, 72886); (73009, 73014); (73018, 73018);
   (73020, 73021); (73023, 73029); (73031, 73031); (73104, 73105); (73109, 73109);
   (73111, 73111); (73459, 73460); (78896, 78904); (92912, 92916); (92976, 92982);
   (92992, 92995); (94031, 94031); (94095, 94111); (94176, 94177); (94179, 94180);
   (110576, 110579); (110581, 110587); (110589, 110590); (113821, 113822); (113824, 113827);
   (118528, 118573); (118576, 118598); (119143, 119145); (119155, 119170); (119173, 119179);
   (119210, 119213); (119362, 119364); (121344, 121398); (121403, 121452); (121461, 121461);
   (121476, 121476); (121499, 121503); (121505, 121519); (122880, 122886); (122888, 122904);
   (122907, 122913); (122915, 122916); (122918, 122922); (123184, 123197); (123566, 123566);
   (123628, 123631); (125136, 125142); (125252, 125259); (127995, 127999); (917505, 917505);
   (917536, 917631); (917760, 917999)
  ].

(** The code points with the property Cased. *)
Definition cased_ranges : list (N * N) :=
  [
   (65, 90); (97, 122); (170, 170); (181, 181); (186, 186);
   (192, 214); (216, 246); (248, 442); (444, 447); (452, 659);
   (661, 696); (704, 705); (736, 740); (837, 837); (880, 883);
   (886, 887); (890, 893); (895, 895); (902, 902); (904, 906);
   (908, 908); (910, 929); (931, 1013); (1015, 1153); (1162, 1327);
   (1329, 1366); (1376, 1416); (4256, 4293); (4295, 4295); (4301, 4301);
   (4304, 4346); (4349, 4351); (5024, 5109); (5112, 5117); (7296, 7304);
   (7312, 7354); (7357, 7359); (7424, 7615); (7680, 7957); (7960, 7965);
   (7968, 8005); (8008, 8013); (8016, 8023); (8025, 8025); (8027, 8027);
   (8029, 8029); (8031, 8061); (8064, 8116); (8118, 8124); (8126, 8126);
   (8130, 8132); (8134, 8140); (8144, 8147); (8150, 8155); (8160, 8172);
   (8178, 8180); (8182, 8188); (8305, 8305); (8319, 8319); (8336, 8348);
   (8450, 8450); (8455, 8455); (8458, 8467); (8469, 8469); (8473, 8477);
   (8484, 8484); (8486, 8486); (8488, 8488); (8490, 8493); (8495, 8500);
   (8505, 8505); (8508, 8511); (8517, 8521); (8526, 8526); (8544, 8575);
   (8579, 8580); (9398, 9449); (11264, 11492); (11499, 11502); (11506, 11507);
   (11520, 11557); (11559, 11559); (11565, 11565); (42560, 42605); (42624, 42653);
   (42786, 42887); (42891, 42894); (42896, 42954); (42960, 42961); (42963, 42963);
   (42965, 42969); (42997, 42998); (43000, 43002); (43824, 43866); (43868, 43880);
   (43888, 43967); (64256, 64262); (64275, 64279); (65313, 65338); (65345, 65370);
   (66560, 66639); (66736, 66771); (66776, 66811); (66928, 66938); (66940, 66954);
   (66956, 66962); (66964, 66965); (66967, 66977); (66979, 66993); (66995, 67001);
   (67003, 67004); (67456, 67456); (67459, 67461); (67463, 67504); (67506, 67514);
   (68736, 68786); (68800, 68850); (71840, 71903); (93760, 93823); (119808, 119892);
   (119894, 119964); (119966, 119967); (119970, 119970); (119973, 119974); (119977, 119980);
   (119982, 119993); (119995, 119995); (119997, 120003); (120005, 120069); (120071, 120074);
   (120077, 120084); (120086, 120092); (120094, 120121); (120123, 120126); (120128, 120132);
   (120134, 120134); (120138, 120144); (120146, 120485); (120488, 120512); (120514, 120538);
   (120540, 120570); (120572, 120596); (120598, 120628); (120630, 120654); (120656, 120686);
   (120688, 120712); (120714, 120744); (120746, 120770); (120772, 120779); (122624, 122633);
   (122635, 122654); (125184, 125251); (127280, 127305); (127312, 127337); (127344, 127369)
  ].

Definition is_case_ignorable (c : N) : bool := in_ranges case_ignorable_ranges c.
Definition is_cased (c : N) : bool := in_ranges cased_ranges c.

(** After a capital sigma: case-ignorable code points, then a cased one. *)
Fixpoint followed_by_cased (l : list N) : bool :=
  match l with
  | [] => false
  | c :: l' => if is_case_ignorable c then followed_by_cased l' else is_cased c
  end.

(** Lowercasing from the left.  [after_cased] tells whether the nearest
    code point before this place that is not case-ignorable is cased.  The
    capital sigma U+03A3 becomes the final sigma U+03C2 after a cased letter
    when no cased letter follows, and U+03C3 otherwise. *)
Fixpoint lower_from (after_cased : bool) (l : list N) : list N :=
  match l with
  | [] => []
  | c :: rest =>
      (if c =? 931 then
         [if after_cased && negb (followed_by_cased rest) then 962 else 963]
       else to_lower_full c)
      ++ lower_from (if is_case_ignorable c then after_cased else is_cased c) rest
  end.

(** The code points [str.isspace()] accepts: these are what [str.strip()]
    removes. *)
Definition white_space : list N :=
  [9; 10; 11; 12; 13; 28; 29; 30; 31; 32; 133; 160; 5760; 8192; 8193; 8194;
   8195; 8196; 8197; 8198; 8199; 8200; 8201; 8202; 8232; 8233; 8239; 8287;
   12288].

End Unicode.

(** ** Python strings *)

Module PyStr.

(** The line feed, written [\n] in the source. *)
Definition LF : ascii := ascii_of_nat 10.
Definition nl : string := String LF "".

(** [s.startswith(k)] *)
Fixpoint startswith (s k : string) {struct k} : bool :=
  match k with
  | EmptyString => true
  | String a k' =>
      match s with
      | EmptyString => false
      | String b s' => Ascii.eqb a b && startswith s' k'
      end
  end.

(** [k in s] for two strings: [k] occurs in [s] as a contiguous run. *)
Fixpoint str_in (k s : string) {struct s} : bool :=
  startswith s k
  || match s with
     | EmptyString => false
     | String _ s' => str_in k s'
     end.

(** The folding of the ASCII letters, which is all that SQLite's [lower()]
    does. *)
Definition is_upper (c : ascii) : bool :=
  let n := nat_of_ascii c in (65 <=? n)%nat && (n <=? 90)%nat.

Definition lower_char (c : ascii) : ascii :=
  if is_upper c then ascii_of_nat (nat_of_ascii c + 32) else c.

Fixpoint map_chars (f : ascii -> ascii) (s : string) : string :=
  match s with
  | EmptyString => EmptyString
  | String c s' => String (f c) (map_chars f s')
  end.

(** [s.lower()]: the code points are lowercased from the left. *)
Definition lower (s : string) : string :=
  Unicode.encode (Unicode.lower_from false (Unicode.decode s)).

(** A text backwards. *)
Fixpoint reverse (s : string) : string :=
  match s with
  | EmptyString => EmptyString
  | String c s' => reverse s' ++ String c EmptyString
  end.

(** The UTF-8 forms of the white-space characters. *)
Definition white_space : list string := map Unicode.encode_char Unicode.white_space.

(** [s] without its prefix [w], when [s] starts with [w]. *)
Fixpoint drop_prefix (w s : string) : option string :=
  match w with
  | EmptyString => Some s
  | String a w' =>
      match s with
      | EmptyString => None
      | String b s' => if Ascii.eqb a b then drop_prefix w' s' else None
      end
  end.

(** [s] without the first member of [ws] it starts with. *)
Fixpoint drop_first (ws : list string) (s : string) : option string :=
  match ws with
  | [] => None
  | w :: ws' =>
      match drop_prefix w s with
      | Some s' => Some s'
      | None => drop_first ws' s
      end
  end.

(** Members of [ws] are dropped from the front of [s] as long as [s]
    starts with one; [fuel] bounds the number of rounds. *)
Fixpoint drop_all (ws : list string) (fuel : nat) (s : string) : string :=
  match fuel with
  | O => s
  | S fuel' =>
      match drop_first ws s with
      | Some s' => drop_all ws fuel' s'
      | None => s
      end
  end.

(** [s.lstrip()], [s.rstrip()] and [s.strip()]: the white-space characters
    at the ends are removed.  In well-formed UTF-8 a text starts (ends)
    with the form of a character exactly when that is its first (last)
    character. *)
Definition lstrip (s : string) : string := drop_all white_space (String.length s) s.

Definition rstrip (s : string) : string :=
  reverse (drop_all (map reverse white_space) (String.length s) (reverse s)).

Definition strip (s : string) : string := rstrip (lstrip s).

(** [c] is a byte of a member of [ws]. *)
Definition byte_of (ws : list string) (c : ascii) : bool :=
  existsb (fun w => str_in (String c EmptyString) w) ws.

(** [sep.join(parts)] *)
Fixpoint join (sep : string) (parts : list string) : string :=
  match parts with
  | [] => ""
  | [p] => p
  | p :: rest => p ++ sep ++ join sep rest
  end.

(** [s.split("\n")]: the pieces between line feeds, in order. *)
Fixpoint split_lines (s : string) : list string :=
  match s with
  | EmptyString => [""]
  | String c s' =>
      if Ascii.eqb c LF then "" :: split_lines s'
      else match split_lines s' with
           | [] => [String c ""]
           | l :: ls => String c l :: ls
           end
  end.

(** [s.endswith(k)] for a one-character [k]. *)
Fixpoint last_char (s : string) : option ascii :=
  match s with
  | EmptyString => None
  | String c EmptyString => Some c
  | String _ s' => last_char s'
  end.

Definition first_char (s : string) : option ascii :=
  match s with
  | EmptyString => None
  | String c _ => Some c
  end.

(** [bool(s)]: a string is true when it is not empty. *)
Definition truthy (s : string) : bool :=
  match s with
  | EmptyString => false
  | String _ _ => true
  end.

(** [str(n)] for an [int]. *)
Definition str_int (n : Z) : string := NilZero.string_of_int (Z.to_int n).

End PyStr.
Import PyStr.

(** ** Exceptions, results, dictionaries and [str.format] *)

Inductive exn : Type :=
| KeyError (key : string)
| ValueError (msg : string)
| IndexError (msg : string)
| HTTPException (status_code : Z) (detail : string)
| UnicodeEncodeError (codec : string)
| Exception (msg : string)
| Unsupported (what : string).

(** A computation either returns or raises. *)
Inductive pyresult (A : Type) : Type :=
| Ret (a : A)
| Raise (e : exn).
Arguments Ret {A} a.
Arguments Raise {A} e.

Definition bind {A B : Type} (m : pyresult A) (k : A -> pyresult B) : pyresult B :=
  match m with
  | Ret a => k a
  | Raise e => Raise e
  end.

Notation "x <- m ;; k" := (bind m (fun x => k))
  (at level 61, m at next level, right associativity).

(** [try: body  except Exception: handler] *)
Definition try_except {A : Type} (body : pyresult A) (handler : exn -> pyresult A)
  : pyresult A :=
  match body with
  | Ret a => Ret a
  | Raise e => handler e
  end.

(** A [dict] with string keys, in insertion order. *)
Definition dict (V : Type) : Type := list (string * V).

(** [d[k]] *)
Fixpoint dict_get {V : Type} (d : dict V) (k : string) : pyresult V :=
  match d with
  | [] => Raise (KeyError k)
  | (k', v) :: d' => if String.eqb k' k then Ret v else dict_get d' k
  end.

(** [k in d] *)
Definition dict_in {V : Type} (k : string) (d : dict V) : bool :=
  existsb (fun kv => String.eqb (fst kv) k) d.

(** [any(p(x) for x in l)] *)
Definition any {A : Type} (p : A -> bool) (l : list A) : bool := existsb p l.

Definition is_digit (c : ascii) : bool :=
  let n := nat_of_ascii c in (48 <=? n)%nat && (n <=? 57)%nat.

Fixpoint all_chars (p : ascii -> bool) (s : string) : bool :=
  match s with
  | EmptyString => true
  | String c s' => p c && all_chars p s'
  end.

(** The value a replacement field [{name}] stands for, with keyword
    arguments only.  An empty or numeric name asks for a positional
    argument, and there is none.  Conversions, format specifications,
    attributes and indices (a name with one of the characters ! : . or an
    opening bracket) are not used by this program's templates; a field
    that has one is reported as [Unsupported]. *)
Definition field_value (name : string) (kwargs : dict string) : pyresult string :=
  match name with
  | EmptyString =>
      Raise (IndexError "Replacement index 0 out of range for positional args tuple")
  | _ =>
      if any (fun k => str_in k name) ["!"; ":"; "."; "["] then
        Raise (Unsupported name)
      else if all_chars is_digit name then
        Raise (IndexError "Replacement index out of range for positional args tuple")
      else dict_get kwargs name
  end.

(** [str.format] called on [tpl] with keyword arguments [kwargs],
    scanning [tpl] from the left.  [field] is
    [None] in literal text and [Some name] inside a replacement field whose
    name read so far is [name]. *)
Fixpoint format_from (tpl : string) (kwargs : dict string) (field : option string)
  {struct tpl} : pyresult string :=
  match field with
  | None =>
      match tpl with
      | EmptyString => Ret ""
      | String c rest =>
          if Ascii.eqb c "{" then
            match rest with
            | EmptyString => Raise (ValueError "Single '{' encountered in format string")
            | String c' rest' =>
                if Ascii.eqb c' "{" then
                  r <- format_from rest' kwargs None ;; Ret (String "{" r)
                else format_from rest kwargs (Some "")
            end
          else if Ascii.eqb c "}" then
            match rest with
            | EmptyString => Raise (ValueError "Single '}' encountered in format string")
            | String c' rest' =>
                if Ascii.eqb c' "}" then
                  r <- format_from rest' kwargs None ;; Ret (String "}" r)
                else Raise (ValueError "Single '}' encountered in format string")
            end
          else r <- format_from rest kwargs None ;; Ret (String c r)
      end
  | Some name =>
      match tpl with
      | EmptyString => Raise (ValueError "expected '}' before end of string")
      | String c rest =>
          if Ascii.eqb c "}" then
            v <- field_value name kwargs ;;
            r <- format_from rest kwargs None ;;
            Ret (v ++ r)
          else if Ascii.eqb c "{" then
            Raise (if any (fun k => str_in k name) ["!"; ":"; "."; "["]
                   then Unsupported name
                   else ValueError "unexpected '{' in field name")
          else format_from rest kwargs (Some (name ++ String c ""))
      end
  end.

Definition format (tpl : string) (kwargs : dict string) : pyresult string :=
  format_from tpl kwargs None.

(** ** The tables of main.py *)

(** [location_aliases]: common names to the exact names in the database,
    in the order the literal inserts them. *)
Definition location_aliases : dict string :=
  [ ("salem", "Salem"); ("salem (extended)", "Salem (Extended)");
    ("puducherry", "Puducherry");
    ("kumbakonam", "Kumbakonam Town"); ("kumbakonam town", "Kumbakonam Town");
    ("kanchipuram", "Kanchipuram");
    ("kanchipuram town", "Kanchipuram Town"); ("karaikal", "Karaikal");
    ("karaikal town", "Karaikal Town");
    ("viluppuram", "Viluppuram"); ("villupuram", "Villupuram") ].

Definition translations_en : dict string :=
  [ ("greeting",
     "Hello! I can tell you about groundwater level, quality (pH/TDS/COD/BOD), and irrigation status. Just ask, e.g., 'groundwater level in Kuppam'")
  ; ("no_location",
     "Please specify a location (example: 'groundwater level in Kuppam')")
  ; ("no_data",
     "No data found for location: {location}")
  ; ("level_reply",
     "Groundwater level in {location}: {level} m. Last updated: {date}.")
  ; ("quality_reply",
     "Water quality in {location}: pH is {ph}, TDS is {tds} mg/L, COD is {cod} mg/L, and BOD is {bod} mg/L. Last updated: {date}.")
  ; ("status_reply",
     "For {location}, the water is: {status}. Last updated: {date}.")
  ; ("full_report_title",
     "Here is the full report for {location}:")
  ; ("full_report_level",
     "• Groundwater Level: {level} m.")
  ; ("full_report_ph",
     "• pH: {ph}.")
  ; ("full_report_tds",
     "• TDS: {tds} mg/L.")
  ; ("full_report_cod",
     "• COD: {cod} mg/L.")
  ; ("full_report_bod",
     "• BOD: {bod} mg/L.")
  ; ("full_report_status",
     "• Status: {status}.")
  ; ("full_report_date",
     "• Last updated: {date}.")
  ; ("unknown_request",
     "I'm sorry, I don't understand that request. Could you please rephrase?")
  ; ("tds_def",
     "TDS stands for Total Dissolved Solids. It is a measure of the total concentration of dissolved substances in water, which affects its taste and quality.")
  ; ("bod_def",
     "BOD stands for Biochemical Oxygen Demand. It measures the amount of oxygen consumed by microorganisms to decompose organic matter in water.")
  ; ("cod_def",
     "COD stands for Chemical Oxygen Demand. It measures the amount of oxygen required to chemically break down pollutants in water.")
  ; ("ph_def",
     "pH is a measure of how acidic or alkaline (basic) the water is. A pH of 7 is neutral, while lower values are acidic and higher values are alkaline.")
  ; ("def_error",
     "I can define TDS, BOD, COD, or pH for you. Please ask for a specific term.")
  ].

Definition translations_ta : dict string :=
  [ ("greeting",
     "வணக்கம்! நிலத்தடி நீர் மட்டம், தரம் (pH/TDS/COD/BOD) மற்றும் பாசன நிலை குறித்து நான் உங்களுக்குச் சொல்ல முடியும். உதாரணமாக, 'குப்பம் நிலத்தடி நீர் மட்டம்' என்று கேளுங்கள்.")
  ; ("no_location",
     "தயவுசெய்து ஒரு இடத்தைக் குறிப்பிடவும் (உதாரணமாக: 'குப்பம் நிலத்தடி நீர் மட்டம்')")
  ; ("no_data",
     "{location} இடத்திற்கான தரவு கிடைக்கவில்லை")
  ; ("level_reply",
     "{location} இல் நிலத்தடி நீர் மட்டம்: {level} மீ. கடைசியாக புதுப்பிக்கப்பட்டது: {date}.")
  ; ("quality_reply",
     "{location} இல் நீர் தரம்: pH {ph}, TDS {tds} மி.கி/லி, COD {cod} மி.கி/லி, மற்றும் BOD {bod} மி.கி/லி. கடைசியாக புதுப்பிக்கப்பட்டது: {date}.")
  ; ("status_reply",
     "{location} இல் உள்ள நீர்: {status}. கடைசியாக புதுப்பிக்கப்பட்டது: {date}.")
  ; ("full_report_title",
     "{location} குறித்த முழு அறிக்கை இங்கே உள்ளது:")
  ; ("full_report_level",
     "• நிலத்தடி நீர் மட்டம்: {level} மீ.")
  ; ("full_report_ph",
     "• pH: {ph}.")
  ; ("full_report_tds",
     "• TDS: {tds} மி.கி/லி.")
  ; ("full_report_cod",
     "• COD: {cod} மி.கி/லி.")
  ; ("full_report_bod",
     "• BOD: {bod} மி.கி/லி.")
  ; ("full_report_status",
     "• நிலை: {status}.")
  ; ("full_report_date",
     "• கடைசியாக புதுப்பிக்கப்பட்டது: {date}.")
  ; ("unknown_request",
     "மன்னிக்கவும், அந்த கோரிக்கை எனக்குப் புரியவில்லை. தயவுசெய்து மீண்டும் கேட்க முடியுமா?")
  ; ("tds_def",
     "TDS என்பது நீரில் கரைந்துள்ள மொத்த திடப்பொருட்களைக் குறிக்கிறது. இது நீரின் சுவை மற்றும் தரத்தை பாதிக்கும் நீரில் கரைந்துள்ள பொருட்களின் மொத்த செறிவின் அளவீடு ஆகும்.")
  ; ("bod_def",
     "BOD என்பது உயிரி இரசாயன ஆக்ஸிஜன் தேவையைக் குறிக்கிறது. இது நீரில் உள்ள கரிமப் பொருட்களை சிதைக்க நுண்ணுயிரிகளால் பயன்படுத்தப்படும் ஆக்ஸிஜன் அளவை அளவிடுகிறது.")
  ; ("cod_def",
     "COD என்பது இரசாயன ஆக்ஸிஜன் தேவையைக் குறிக்கிறது. இது நீரில் உள்ள மாசுக்களை இரசாயன ரீதியாக உடைக்கத் தேவையான ஆக்ஸிஜன் அளவை அளவிடுகிறது.")
  ; ("ph_def",
     "pH என்பது நீர் எவ்வளவு அமிலத்தன்மை கொண்டது அல்லது காரத்தன்மை கொண்டது என்பதற்கான அளவீடு ஆகும். pH 7 என்பது நடுநிலை, அதேசமயம் குறைந்த மதிப்புகள் அமிலத்தன்மை கொண்டவை மற்றும் அதிக மதிப்புகள் காரத்தன்மை கொண்டவை.")
  ; ("def_error",
     "நான் உங்களுக்கு TDS, BOD, COD அல்லது pH-ஐ வரையறுக்க முடியும். தயவுசெய்து ஒரு குறிப்பிட்ட பதத்தைக் கேளுங்கள்.")
  ].

Definition translations_te : dict string :=
  [ ("greeting",
     "నమస్కారం! నేను మీకు భూగర్భ జలాల స్థాయి, నాణ్యత (pH/TDS/COD/BOD), మరియు సాగునీటి స్థితి గురించి చెప్పగలను. ఉదాహరణకు, 'కుప్పం భూగర్భ జలాల స్థాయి' అని అడగండి.")
  ; ("no_location",
     "దయచేసి ఒక స్థానాన్ని పేర్కొనండి (ఉదాహరణకు: 'కుప్పం భూగర్భ జలాల స్థాయి')")
  ; ("no_data",
     "{location} స్థానానికి డేటా కనుగొనబడలేదు")
  ; ("level_reply",
     "{location} లో భూగర్భ జలాల స్థాయి: {level} మీ. చివరిగా నవీకరించబడింది: {date}.")
  ; ("quality_reply",
     "{location} లో నీటి నాణ్యత: pH {ph}, TDS {tds} mg/L, COD {cod} mg/L, మరియు BOD {bod} mg/L. చివరిగా నవీకరించబడింది: {date}.")
  ; ("status_reply",
     "{location} కోసం, నీరు: {status}. చివరిగా నవీకరించబడింది: {date}.")
  ; ("full_report_title",
     "{location} కోసం పూర్తి నివేదిక ఇక్కడ ఉంది:")
  ; ("full_report_level",
     "• భూగర్భ జలాల స్థాయి: {level} మీ.")
  ; ("full_report_ph",
     "• pH: {ph}.")
  ; ("full_report_tds",
     "• TDS: {tds} mg/L.")
  ; ("full_report_cod",
     "• COD: {cod} mg/L.")
  ; ("full_report_bod",
     "• BOD: {bod} mg/L.")
  ; ("full_report_status",
     "• స్థితి: {status}.")
  ; ("full_report_date",
     "• చివరిగా నవీకరించబడింది: {date}.")
  ; ("unknown_request",
     "క్షమించండి, ఆ అభ్యర్థన నాకు అర్థం కాలేదు. దయచేసి తిరిగి అడగగలరా?")
  ; ("tds_def",
     "TDS అంటే మొత్తం కరిగిన ఘనపదార్థాలు. ఇది నీటి రుచి మరియు నాణ్యతను ప్రభావితం చేసే నీటిలో కరిగిన పదార్ధాల మొత్తం సాంద్రత యొక్క కొలత.")
  ; ("bod_def",
     "BOD అంటే జీవరసాయన ఆక్సిజన్ డిమాండ్. ఇది నీటిలో సేంద్రీయ పదార్థాన్ని కుళ్ళిపోయేలా సూక్ష్మజీవుల ద్వారా వినియోగించబడే ఆక్సిజన్ మొత్తాన్ని కొలుస్తుంది.")
  ; ("cod_def",
     "COD అంటే రసాయన ఆక్సిజన్ డిమాండ్. ఇది నీటిలో కాలుష్య కారకాలను రసాయనికంగా విచ్ఛిన్నం చేయడానికి అవసరమైన ఆక్సిజన్ మొత్తాన్ని కొలుస్తుంది.")
  ; ("ph_def",
     "pH అనేది నీరు ఎంత ఆమ్లంగా లేదా క్షారంగా (బేసిక్) ఉందో కొలిచే కొలత. pH 7 అనేది நடுநிலை, అదేసమయం குறைந்த மதிப்புகள் ఆమ్లంగా మరియు అధిక విలువలు క్షారంగా ఉంటాయి.")
  ; ("def_error",
     "నేను మీకు TDS, BOD, COD లేదా pH ను నిర్వచించగలను. தயவுசெய்து ఒక నిర్దిஷ்ட పదం కోసం అడగండి.")
  ].

(** [translations]: language code, then template name, to template. *)
Definition translations : dict (dict string) :=
  [ ("en", translations_en); ("ta", translations_ta); ("te", translations_te) ].

(** [translations[language][name]] *)
Definition tr (language name : string) : pyresult string :=
  t <- dict_get translations language ;; dict_get t name.

(** [translations[language][name].format(...)] with keyword arguments
    [kwargs]: the template is looked up first, then filled in. *)
Definition tr_format (language name : string) (kwargs : dict string) : pyresult string :=
  tpl <- tr language name ;; format tpl kwargs.

(** ** The record store *)

(** A row of the [groundwater] table (init.py), as [dict(row)] hands it to
    the program: [REAL] columns are Python floats, [TDS] is an [int]. *)
Module Row.
Record t (float : Type) : Type := mk {
  id : Z;
  location : string;
  groundwater_level : float;
  pH : float;
  TDS : Z;
  COD : float;
  BOD : float;
  status : string;
  last_updated : string
}.
Arguments mk {float}.
Arguments id {float}.
Arguments location {float}.
Arguments groundwater_level {float}.
Arguments pH {float}.
Arguments TDS {float}.
Arguments COD {float}.
Arguments BOD {float}.
Arguments status {float}.
Arguments last_updated {float}.
End Row.

(** SQLite's built-in [lower()] folds the ASCII letters only. *)
Definition sqlite_lower (s : string) : string := map_chars lower_char s.

(** The sheet [get_report] builds with openpyxl. *)
Inductive cell (float : Type) : Type :=
| CellStr (s : string)
| CellFloat (f : float).
Arguments CellStr {float} s.
Arguments CellFloat {float} f.

Record Font : Type := { size : Z; bold : bool }.

Record Workbook (float : Type) : Type := {
  sheet_title : string;
  A1 : string * Font;
  appended : list (list (cell float))
}.
Arguments sheet_title {float}.
Arguments A1 {float}.
Arguments appended {float}.

(** The characters openpyxl refuses in the title of a sheet. *)
Definition invalid_title_chars : list ascii :=
  ["\"; "*"; "?"; ":"; "/"; "["; "]"]%char.

Fixpoint first_invalid_title_char (value : string) : option ascii :=
  match value with
  | EmptyString => None
  | String c rest =>
      if existsb (Ascii.eqb c) invalid_title_chars then Some c
      else first_invalid_title_char rest
  end.

(** [sheet.title = value]: openpyxl's setter raises a [ValueError] that
    names the first refused character. *)
Definition set_sheet_title (value : string) : pyresult string :=
  match first_invalid_title_char value with
  | Some c =>
      Raise (ValueError ("Invalid character " ++ String c EmptyString
                         ++ " found in sheet title"))
  | None => Ret value
  end.

(** What an endpoint sends back apart from a JSON body. *)
Record Response : Type := {
  content : string;
  media_type : string;
  headers : dict string
}.

(** [value.encode("latin-1")] succeeds: no code point is above U+00FF. *)
Definition latin1 (value : string) : bool :=
  forallb (fun c => (c <=? 255)%N) (Unicode.decode value).

(** Starlette's [Response(content=..., media_type=..., headers=...)]: the
    name of each header, lowercased, and its value are encoded as latin-1,
    which raises a [UnicodeEncodeError] on other text. *)
Definition make_response (content media_type : string) (headers : dict string)
  : pyresult Response :=
  if forallb (fun kv => latin1 (lower (fst kv)) && latin1 (snd kv)) headers
  then Ret {| content := content; media_type := media_type; headers := headers |}
  else Raise (UnicodeEncodeError "latin-1").

(** [bool(x)] for a value that is [None] or a string. *)
Definition if_truthy (x : option string) : option string :=
  match x with
  | Some s => if truthy s then Some s else None
  | None => None
  end.

(** The loop of [handle_query] over [location_aliases.items()]: the value
    of the first alias that occurs in [msg]; the loop stops there. *)
Fixpoint scan_aliases (aliases : dict string) (msg : string) : option string :=
  match aliases with
  | [] => None
  | (alias, db_location) :: rest =>
      if str_in alias msg then Some db_location else scan_aliases rest msg
  end.

(** The choice of [query_type] in [handle_query]. *)
Definition query_type_of (msg : string) : string :=
  if any (fun k => str_in k msg) ["level"; "water table"] then "level"
  else if any (fun k => str_in k msg) ["ph"; "tds"; "cod"; "bod"; "quality"] then "quality"
  else if any (fun k => str_in k msg) ["status"; "irrigation"; "drinking"; "recommended"]
       then "status"
  else "full".

(** ** The service *)

Section Service.

(** Python's [float] and its [str()]. *)
Variable float : Type.
Variable str_float : float -> string.

(** The [groundwater] table, in the order SQLite scans it. *)
Variable db : list (Row.t float).

(** The Gemini client: building the model, [generate_content(prompt)] and
    reading [response.text], as one call that returns text or raises. *)
Variable generate_content : string -> pyresult string.

(** [gmaps.reverse_geocode((latitude, longitude))].  Each result is given
    by [str(component['address_components'])], or [None] when the result
    has no such key. *)
Variable reverse_geocode : float -> float -> pyresult (list (option string)).

(** Filling the sheet ([sheet['A1']], [sheet.append(row)] for each row),
    [workbook.save(output)] and [output.read()]: the bytes of the file, or
    the message of the exception openpyxl raises on a cell value it
    refuses. *)
Variable workbook_save : Workbook float -> string + string.

(** [query_db] on the one query the program sends:
    [SELECT * FROM groundwater WHERE lower(location)=lower(?)]. *)
Definition query_db (location : string) : list (Row.t float) :=
  filter (fun row => String.eqb (sqlite_lower (Row.location row)) (sqlite_lower location))
         db.

Definition get_record_by_location (location : string) : option (Row.t float) :=
  match query_db location with
  | row :: _ => Some row
  | [] => None
  end.

Definition get_llm_response (prompt : string) : pyresult string :=
  try_except (generate_content prompt)
    (fun _ => Ret "I am unable to provide a general response at this moment.").

Definition generate_reply (rec : Row.t float) (language : string) (query_type : string)
  : pyresult string :=
  if String.eqb query_type "level" then
    tr_format language "level_reply"
      [("location", Row.location rec);
       ("level", str_float (Row.groundwater_level rec));
       ("date", Row.last_updated rec)]
  else if String.eqb query_type "quality" then
    tr_format language "quality_reply"
      [("location", Row.location rec);
       ("ph", str_float (Row.pH rec));
       ("tds", str_int (Row.TDS rec));
       ("cod", str_float (Row.COD rec));
       ("bod", str_float (Row.BOD rec));
       ("date", Row.last_updated rec)]
  else if String.eqb query_type "status" then
    tr_format language "status_reply"
      [("location", Row.location rec);
       ("status", Row.status rec);
       ("date", Row.last_updated rec)]
  else
    title <- tr_format language "full_report_title" [("location", Row.location rec)] ;;
    level <- tr_format language "full_report_level"
               [("level", str_float (Row.groundwater_level rec))] ;;
    ph <- tr_format language "full_report_ph" [("ph", str_float (Row.pH rec))] ;;
    tds <- tr_format language "full_report_tds" [("tds", str_int (Row.TDS rec))] ;;
    cod <- tr_format language "full_report_cod" [("cod", str_float (Row.COD rec))] ;;
    bod <- tr_format language "full_report_bod" [("bod", str_float (Row.BOD rec))] ;;
    status <- tr_format language "full_report_status" [("status", Row.status rec)] ;;
    date <- tr_format language "full_report_date" [("date", Row.last_updated rec)] ;;
    Ret (title ++ nl ++ level ++ nl ++ ph ++ nl ++ tds ++ nl ++ cod ++ nl
         ++ bod ++ nl ++ status ++ nl ++ date).

(** The inner loop of [find_location_from_coords] on one geocoding result. *)
Fixpoint scan_component (aliases : dict string) (component : option string)
  : pyresult (option string) :=
  match aliases with
  | [] => Ret None
  | (alias, db_location) :: rest =>
      match component with
      | None => Raise (KeyError "address_components")
      | Some text =>
          if str_in (lower alias) (lower text) then Ret (Some db_location)
          else scan_component rest component
      end
  end.

Fixpoint scan_components (results : list (option string)) : pyresult (option string) :=
  match results with
  | [] => Ret None
  | component :: rest =>
      found <- scan_component location_aliases component ;;
      match found with
      | Some db_location => Ret (Some db_location)
      | None => scan_components rest
      end
  end.

Definition find_location_from_coords (latitude longitude : float) : option string :=
  match
    try_except
      (reverse_geocode_result <- reverse_geocode latitude longitude ;;
       match reverse_geocode_result with
       | [] => Ret None
       | _ => scan_components reverse_geocode_result
       end)
      (fun _ => Ret None)
  with
  | Ret found => found
  | Raise _ => None
  end.

(** [POST /api/query].  The answer is the JSON object returned. *)
Definition handle_query (message language : string) : pyresult (dict string) :=
  let msg := strip (lower message) in
  let language := if dict_in language translations then language else "en" in
  if any (fun k => str_in k msg) ["hi"; "hello"; "hey"] then
    r <- tr language "greeting" ;; Ret [("reply", r)]
  else if any (fun k => str_in k msg) ["what is"; "define"; "meaning of"; "what does"] then
    if str_in "tds" msg then r <- tr language "tds_def" ;; Ret [("reply", r)]
    else if str_in "bod" msg then r <- tr language "bod_def" ;; Ret [("reply", r)]
    else if str_in "cod" msg then r <- tr language "cod_def" ;; Ret [("reply", r)]
    else if str_in "ph" msg then r <- tr language "ph_def" ;; Ret [("reply", r)]
    else r <- tr language "def_error" ;; Ret [("reply", r)]
  else
    let location := scan_aliases location_aliases msg in
    match if_truthy location with
    | Some location =>
        match get_record_by_location location with
        | None =>
            r <- tr_format language "no_data" [("location", location)] ;;
            Ret [("reply", r)]
        | Some rec =>
            let query_type := query_type_of msg in
            r <- generate_reply rec language query_type ;;
            Ret [("reply", r); ("location", Row.location rec)]
        end
    | None =>
        let llm_prompt :=
          "The user is asking a question in English. The reply must be in "
          ++ language ++ " and conversational." ++ nl ++ "User query: " ++ msg in
        llm_response <- get_llm_response llm_prompt ;;
        Ret [("reply", llm_response)]
    end.

(** [POST /api/query_by_location] *)
Definition handle_location_query (latitude longitude : float) (language : string)
  : pyresult (dict string) :=
  let language := if dict_in language translations then language else "en" in
  let location_name := find_location_from_coords latitude longitude in
  match if_truthy location_name with
  | Some location_name =>
      match get_record_by_location location_name with
      | Some rec =>
          reply <- generate_reply rec language "full" ;;
          Ret [("reply", reply); ("location", Row.location rec)]
      | None =>
          r <- tr_format language "no_data" [("location", location_name)] ;;
          Ret [("reply", r)]
      end
  | None =>
      r <- tr language "unknown_request" ;; Ret [("reply", r)]
  end.

(** [GET /api/report/{location}] *)
Definition get_report (location : string) : pyresult Response :=
  match get_record_by_location location with
  | None => Raise (HTTPException 404 "Location not found")
  | Some rec =>
      title <- set_sheet_title ("Groundwater Report for " ++ location) ;;
      let workbook :=
        {| sheet_title := title;
           A1 := ("Groundwater Report", {| size := 16; bold := true |});
           appended :=
             [ [];
               [CellStr "Location"; CellStr (Row.location rec)];
               [CellStr "Last Updated"; CellStr (Row.last_updated rec)];
               [CellStr "Groundwater Level";
                CellStr (str_float (Row.groundwater_level rec) ++ " m")];
               [CellStr "pH"; CellFloat (Row.pH rec)];
               [CellStr "TDS"; CellStr (str_int (Row.TDS rec) ++ " mg/L")];
               [CellStr "COD"; CellStr (str_float (Row.COD rec) ++ " mg/L")];
               [CellStr "BOD"; CellStr (str_float (Row.BOD rec) ++ " mg/L")];
               [CellStr "Status"; CellStr (Row.status rec)] ]%list |} in
      match workbook_save workbook with
      | inr msg => Raise (Exception msg)
      | inl content =>
          make_response content
            "application/vnd.openxmlformats-officedocument.spreadsheetml.sheet"
            [("Content-Disposition",
              "attachment; filename=groundwater_report_" ++ location ++ ".xlsx")]
      end
  end.

End Service.

(** ** Vocabulary of the statements *)

(** The language a reply is written in: the requested one when
    [translations] has it, English otherwise. *)
Definition reply_language (language : string) : string :=
  if dict_in language translations then language else "en".

(** The domain terms a definition request is tested for, in order, each
    with the name of its definition template. *)
Definition definition_terms : list (string * string) :=
  [ ("tds", "tds_def"); ("bod", "bod_def"); ("cod", "cod_def"); ("ph", "ph_def") ].

(** The template a definition request is answered with: that of the first
    term of [definition_terms] occurring in the message, the definition
    error when none occurs. *)
Definition definition_template (msg : string) : string :=
  match find (fun t => str_in (fst t) msg) definition_terms with
  | Some t => snd t
  | None => "def_error"
  end.

(** The sub-types of a data query, in order, each with its tokens. *)
Definition query_type_groups : list (string * list string) :=
  [ ("level", ["level"; "water table"]);
    ("quality", ["ph"; "tds"; "cod"; "bod"; "quality"]);
    ("status", ["status"; "irrigation"; "drinking"; "recommended"]) ].

(** The first group one of whose tokens occurs in the message, the full
    report when there is none. *)
Definition first_matching_group (msg : string) : string :=
  match find (fun g => existsb (fun k => str_in k msg) (snd g)) query_type_groups with
  | Some g => fst g
  | None => "full"
  end.

(** A text without a line feed. *)
Definition one_line (s : string) : bool :=
  all_chars (fun c => negb (Ascii.eqb c LF)) s.

(** The values a record contributes to a reply each fit on one line. *)
Definition values_one_line {float : Type} (str_float : float -> string)
  (rec : Row.t float) : Prop :=
  one_line (Row.location rec) = true /\
  one_line (str_float (Row.groundwater_level rec)) = true /\
  one_line (str_float (Row.pH rec)) = true /\
  one_line (str_float (Row.COD rec)) = true /\
  one_line (str_float (Row.BOD rec)) = true /\
  one_line (Row.status rec) = true /\
  one_line (Row.last_updated rec) = true.

(** The rows of the table a case-insensitive lookup of [location] selects. *)
Definition matches_location {float : Type} (location : string) (row : Row.t float) : Prop :=
  sqlite_lower (Row.location row) = sqlite_lower location.

(** ** Sample data *)

Module Sample.

(** A float is given by the text [str()] prints for it. *)
Definition float : Type := string.
Definition str_float (x : float) : string := x.

Definition salem : Row.t float :=
  Row.mk 1 "Salem" "12.4" "7.1" 450 "10.0" "3.2" "safe for drinking" "2024-01-01".

(** The same row with a status written on two lines. *)
Definition salem_two_lines : Row.t float :=
  Row.mk 1 "Salem" "12.4" "7.1" 450 "10.0" "3.2"
    ("safe for drinking" ++ nl ++ "unsafe for irrigation") "2024-01-01".

Definition db : list (Row.t float) := [salem].

(** A generative-text service that is out of quota. *)
Definition generate_content (prompt : string) : pyresult string :=
  Raise (Exception "429 quota exceeded").

(** A geocoder that places every point in Salem. *)
Definition reverse_geocode (latitude longitude : float)
  : pyresult (list (option string)) :=
  Ret [Some "[{'long_name': 'Salem', 'types': ['locality']}]"].

(** A stand-in for the spreadsheet writer. *)
Definition workbook_save (workbook : Workbook float) : string + string :=
  inl ("PK" ++ sheet_title workbook).

End Sample.

(** ** Vocabulary of the further properties *)

(** A text without a brace. *)
Definition brace_free (s : string) : bool :=
  all_chars (fun c => negb (Ascii.eqb c "{") && negb (Ascii.eqb c "}")) s.

(** A template without an escaped brace: neither "{{" nor "}}" occurs. *)
Definition plain_template (tpl : string) : bool :=
  negb (str_in "{{" tpl) && negb (str_in "}}" tpl).

(** The values a record contributes to a reply hold no brace. *)
Definition values_brace_free {float : Type} (str_float : float -> string)
  (rec : Row.t float) : Prop :=
  brace_free (Row.location rec) = true /\
  brace_free (str_float (Row.groundwater_level rec)) = true /\
  brace_free (str_float (Row.pH rec)) = true /\
  brace_free (str_float (Row.COD rec)) = true /\
  brace_free (str_float (Row.BOD rec)) = true /\
  brace_free (Row.status rec) = true /\
  brace_free (Row.last_updated rec) = true.

(** A geocoding result that has address components none of whose text
    contains an alias. *)
Definition names_no_alias (component : option string) : Prop :=
  exists text, component = Some text /\
               scan_aliases location_aliases (lower text) = None.

(** More sample data. *)
Module Sample2.

(** Two rows whose locations differ by case only; the column is unique up
    to exact spelling. *)
Definition salem_upper : Row.t Sample.float :=
  Row.mk 2 "SALEM" "9.8" "6.9" 510 "12.5" "4.0" "safe for irrigation" "2024-03-01".

Definition db : list (Row.t Sample.float) := [Sample.salem; salem_upper].

(** A language model that answers. *)
Definition generate_content (prompt : string) : pyresult string :=
  Ret "Aquifers are layers of rock that hold groundwater.".

(** A geocoder whose first result names no known place, whose second names
    Kanchipuram and whose third names Salem. *)
Definition reverse_geocode (latitude longitude : Sample.float)
  : pyresult (list (option string)) :=
  Ret [Some "[{'long_name': 'Tamil Nadu', 'types': ['administrative_area_level_1']}]";
       Some "[{'long_name': 'Kanchipuram Town', 'types': ['locality']}]";
       Some "[{'long_name': 'Salem', 'types': ['locality']}]"].

(** A geocoder whose first result has no address components. *)
Definition reverse_geocode_malformed (latitude longitude : Sample.float)
  : pyresult (list (option string)) :=
  Ret [None; Some "[{'long_name': 'Salem', 'types': ['locality']}]"].




Definition karaikal : Row.t Sample.float :=
  Row.mk 5 "Karaikal" "6.3" "7.4" 620 "14.0" "4.8" "safe for irrigation" "2024-02-15".

Definition db_coast : list (Row.t Sample.float) := [Sample.salem; karaikal].

(** Texts with letters outside ASCII: "H" and the capital I with dot above,
    U+0130; "araikal" after the Kelvin sign, U+212A; "hello" between two
    no-break spaces, U+00A0. *)
Definition H_dotted_I : string := "H" ++ Unicode.encode_char 304.
Definition kelvin_araikal : string := Unicode.encode_char 8490 ++ "araikal".
Definition padded_hello : string :=
  Unicode.encode_char 160 ++ "hello" ++ Unicode.encode_char 160.

(** A geocoder that is unreachable. *)
Definition reverse_geocode_down (latitude longitude : Sample.float)
  : pyresult (list (option string)) :=
  Raise (Exception "geocoding timeout").

End Sample2.

(** ** Facts about the string built-ins *)

(** Membership in a list written out. *)
Ltac in_list := simpl; repeat (first [left; reflexivity | right]).

Section StringFacts.

Lemma startswith_nil s : startswith s "" = true.
Proof. destruct s; reflexivity. Qed.

Lemma startswith_app k r : startswith (k ++ r) k = true.
Proof.
  induction k as [|a k IH]; simpl.
  - reflexivity.
  - now rewrite Ascii.eqb_refl, IH.
Qed.

Lemma startswith_split s k : startswith s k = true -> exists r, s = k ++ r.
Proof.
  revert s. induction k as [|a k IH]; intros s H.
  - now exists s.
  - destruct s as [|b s]; simpl in H; [discriminate|].
    apply andb_true_iff in H as [Hab Hk].
    apply Ascii.eqb_eq in Hab. subst b.
    destruct (IH _ Hk) as [r ->]. now exists r.
Qed.

Lemma str_in_cons k c s : str_in k s = true -> str_in k (String c s) = true.
Proof. intros H. simpl. rewrite H. apply orb_true_r. Qed.

Lemma str_in_app_l k p s : str_in k s = true -> str_in k (p ++ s) = true.
Proof. induction p; simpl; auto. intros H. rewrite (IHp H). apply orb_true_r. Qed.

(** [k in s] holds exactly when [s] is some text, then [k], then some text. *)
Lemma str_in_spec k s :
  str_in k s = true <-> exists p q, s = p ++ k ++ q.
Proof.
  split.
  - induction s as [|c s IH]; simpl; intros H.
    + rewrite orb_false_r in H.
      destruct (startswith_split _ _ H) as [r Hr]. now exists "", r.
    + apply orb_true_iff in H as [H|H].
      * destruct (startswith_split _ _ H) as [r Hr]. now exists "", r.
      * destruct (IH H) as (p & q & ->). now exists (String c p), q.
  - intros (p & q & ->). apply str_in_app_l.
    destruct (k ++ q) eqn:E; simpl; rewrite <- E, startswith_app; reflexivity.
Qed.

Lemma append_assoc (a b c : string) : (a ++ b) ++ c = a ++ b ++ c.
Proof. induction a; simpl; congruence. Qed.

(** A text that contains [a ++ b] contains [a]. *)
Lemma str_in_prefix a b s : str_in (a ++ b) s = true -> str_in a s = true.
Proof.
  intros H. apply str_in_spec in H as (p & q & ->).
  apply str_in_spec. exists p, (b ++ q). now rewrite append_assoc.
Qed.

(** Containment is transitive. *)
Lemma str_in_trans k s t :
  str_in k s = true -> str_in s t = true -> str_in k t = true.
Proof.
  intros Hk Hs.
  apply str_in_spec in Hk as (p & q & ->).
  apply str_in_spec in Hs as (p' & q' & ->).
  apply str_in_spec. exists (p' ++ p), (q ++ q').
  now rewrite !append_assoc.
Qed.

Lemma all_chars_app (p : ascii -> bool) a b :
  all_chars p (a ++ b) = all_chars p a && all_chars p b.
Proof.
  induction a as [|c a IH]; [reflexivity|].
  simpl. rewrite IH. apply andb_assoc.
Qed.

Lemma append_nil_r (s : string) : s ++ "" = s.
Proof. induction s; simpl; congruence. Qed.

Lemma drop_prefix_some w s s' : drop_prefix w s = Some s' -> s = w ++ s'.
Proof.
  revert s. induction w as [|a w IH]; intros s H.
  - now injection H as ->.
  - destruct s as [|b s]; [discriminate|]. simpl in H.
    destruct (Ascii.eqb a b) eqn:E; [|discriminate].
    apply Ascii.eqb_eq in E. subst b. simpl. f_equal. now apply IH.
Qed.

Lemma drop_first_some ws s s' :
  drop_first ws s = Some s' -> exists w, In w ws /\ s = w ++ s'.
Proof.
  induction ws as [|w ws IH]; [discriminate|]. simpl.
  destruct (drop_prefix w s) as [t|] eqn:E.
  - intros [= ->]. exists w. split; [now left|]. now apply drop_prefix_some.
  - intros H. destruct (IH H) as (w' & Hin & Hs). exists w'. split; [now right|exact Hs].
Qed.

(** Every byte of a member of [ws] is a byte of [ws]. *)
Lemma member_bytes ws w : In w ws -> all_chars (byte_of ws) w = true.
Proof.
  intros Hin.
  assert (H : forall b a, w = a ++ b -> all_chars (byte_of ws) b = true).
  { induction b as [|c b IH]; intros a Hw; [reflexivity|].
    simpl. apply andb_true_iff. split.
    - unfold byte_of. apply existsb_exists. exists w. split; [exact Hin|].
      apply str_in_spec. exists a, b. exact Hw.
    - apply (IH (a ++ String c "")). rewrite Hw, append_assoc. reflexivity. }
  exact (H w "" eq_refl).
Qed.

(** What [drop_all] removes is made of bytes of [ws]. *)
Lemma drop_all_split ws fuel s :
  exists p, s = p ++ drop_all ws fuel s /\ all_chars (byte_of ws) p = true.
Proof.
  revert s. induction fuel as [|fuel IH]; intros s; simpl.
  - now exists "".
  - destruct (drop_first ws s) as [s'|] eqn:E; [|now exists ""].
    apply drop_first_some in E as (w & Hin & ->).
    destruct (IH s') as (p & Hp & Hall).
    exists (w ++ p). split.
    + rewrite append_assoc. now rewrite <- Hp.
    + rewrite all_chars_app, (member_bytes _ _ Hin), Hall. reflexivity.
Qed.

(** With fuel for every byte, [drop_all] stops only where no member of
    [ws] starts the text. *)
Lemma drop_all_done ws :
  Forall (fun w => w <> "") ws ->
  forall fuel s, String.length s <= fuel ->
                 drop_first ws (drop_all ws fuel s) = None.
Proof.
  intros Hne.
  assert (Hempty : drop_first ws "" = None).
  { induction Hne as [|w ws Hw _ IH]; [reflexivity|].
    simpl. destruct w; [congruence|]. exact IH. }
  induction fuel as [|fuel IH]; intros s Hlen.
  - destruct s; [exact Hempty|simpl in Hlen; lia].
  - simpl. destruct (drop_first ws s) as [s'|] eqn:E; [|exact E].
    apply IH. apply drop_first_some in E as (w & Hin & ->).
    rewrite Forall_forall in Hne. specialize (Hne _ Hin).
    assert (Happ : forall a b, String.length (a ++ b) = String.length a + String.length b)
      by (induction a; simpl; auto).
    rewrite Happ in Hlen. destruct w; [congruence|]. simpl in Hlen. lia.
Qed.

Lemma lstrip_done s : drop_first white_space (lstrip s) = None.
Proof.
  apply drop_all_done; [|apply Nat.le_refl].
  apply Forall_forall. intros w Hin ->. vm_compute in Hin.
  repeat (destruct Hin as [Hin|Hin]; [discriminate Hin|]). exact Hin.
Qed.

(** An occurrence of [k] cannot start inside a run of bytes none of which
    is the first byte of [k]. *)
Lemma str_in_after ws k p s c :
  first_char k = Some c -> byte_of ws c = false ->
  all_chars (byte_of ws) p = true ->
  str_in k (p ++ s) = true -> str_in k s = true.
Proof.
  intros Hc Hnot. destruct k as [|a k]; [discriminate|]. injection Hc as ->.
  induction p as [|b p IH]; intros Hall H; [exact H|].
  simpl in Hall. apply andb_true_iff in Hall as [Hb Hall].
  change (str_in (String c k) (String b p ++ s))
    with (startswith (String b (p ++ s)) (String c k) || str_in (String c k) (p ++ s)) in H.
  apply orb_true_iff in H as [H|H]; [|exact (IH Hall H)].
  simpl in H. apply andb_true_iff in H as [Hcb _]. apply Ascii.eqb_eq in Hcb.
  congruence.
Qed.

Lemma str_in_lstrip k s c :
  first_char k = Some c -> byte_of white_space c = false ->
  str_in k s = true -> str_in k (lstrip s) = true.
Proof.
  intros Hc Hnot H. unfold lstrip.
  destruct (drop_all_split white_space (String.length s) s) as (p & Hp & Hall).
  rewrite Hp in H at 1. exact (str_in_after _ _ _ _ _ Hc Hnot Hall H).
Qed.

Lemma reverse_app a b : reverse (a ++ b) = reverse b ++ reverse a.
Proof.
  induction a as [|c a IH]; simpl.
  - now rewrite append_nil_r.
  - now rewrite IH, append_assoc.
Qed.

Lemma reverse_involutive s : reverse (reverse s) = s.
Proof.
  induction s as [|c s IH]; [reflexivity|].
  simpl. now rewrite reverse_app, IH.
Qed.

Lemma length_reverse s : String.length (reverse s) = String.length s.
Proof.
  assert (Happ : forall a b, String.length (a ++ b) = String.length a + String.length b)
    by (induction a; simpl; auto).
  induction s as [|c s IH]; [reflexivity|].
  simpl. rewrite Happ, IH. simpl. lia.
Qed.

Lemma rstrip_done s : drop_first (map reverse white_space) (reverse (rstrip s)) = None.
Proof.
  unfold rstrip. rewrite reverse_involutive.
  apply drop_all_done; [|now rewrite length_reverse].
  apply Forall_forall. intros w Hin ->. vm_compute in Hin.
  repeat (destruct Hin as [Hin|Hin]; [discriminate Hin|]). exact Hin.
Qed.

Lemma str_in_reverse k s : str_in k s = true -> str_in (reverse k) (reverse s) = true.
Proof.
  intros H. apply str_in_spec in H as (p & q & ->).
  apply str_in_spec. exists (reverse q), (reverse p).
  now rewrite !reverse_app, append_assoc.
Qed.

Lemma last_char_split k c : last_char k = Some c -> exists a, k = a ++ String c "".
Proof.
  induction k as [|x k IH]; [discriminate|].
  destruct k as [|y k].
  - intros [= ->]. now exists "".
  - intros H. destruct (IH H) as [a Ha]. exists (String x a). simpl. now rewrite <- Ha.
Qed.

Lemma first_char_reverse k c : last_char k = Some c -> first_char (reverse k) = Some c.
Proof.
  intros H. apply last_char_split in H as [a ->].
  now rewrite reverse_app.
Qed.

Lemma str_in_rstrip k s c :
  last_char k = Some c -> byte_of (map reverse white_space) c = false ->
  str_in k s = true -> str_in k (rstrip s) = true.
Proof.
  intros Hc Hnot H. unfold rstrip.
  destruct (drop_all_split (map reverse white_space) (String.length s) (reverse s))
    as (p & Hp & Hall).
  apply str_in_reverse in H. rewrite Hp in H.
  apply (str_in_after _ _ _ _ _ (first_char_reverse _ _ Hc) Hnot Hall) in H.
  apply str_in_reverse in H. now rewrite reverse_involutive in H.
Qed.

(** Stripping keeps every occurrence of a text whose first and last bytes
    are bytes of no white-space character. *)
Lemma str_in_strip k s a z :
  first_char k = Some a -> byte_of white_space a = false ->
  last_char k = Some z -> byte_of (map reverse white_space) z = false ->
  str_in k s = true -> str_in k (strip s) = true.
Proof.
  intros Ha Hsa Hz Hsz H. unfold strip.
  apply (str_in_rstrip _ _ _ Hz Hsz), (str_in_lstrip _ _ _ Ha Hsa), H.
Qed.

Lemma any_false_in {A} (p : A -> bool) l x :
  any p l = false -> In x l -> p x = false.
Proof.
  unfold any. intros H Hx.
  destruct (p x) eqn:E; [|reflexivity].
  assert (existsb p l = true) by (apply existsb_exists; eauto). congruence.
Qed.

End StringFacts.

(** ** Facts about dictionaries and [format] *)

Section FormatFacts.

Local Ltac by_IH IH :=
  eapply IH; [ | | eassumption]; [simpl in *; lia | assumption].

Lemma dict_get_in {V} (d : dict V) k v : dict_get d k = Ret v -> In (k, v) d.
Proof.
  induction d as [|[k' v'] d IH]; simpl; [discriminate|].
  destruct (String.eqb k' k) eqn:E.
  - apply String.eqb_eq in E. intros [= ->]. left. congruence.
  - intros H. right. auto.
Qed.

Lemma one_line_cons c s :
  one_line (String c s) = negb (Ascii.eqb c LF) && one_line s.
Proof. reflexivity. Qed.

Lemma one_line_app a b : one_line (a ++ b) = one_line a && one_line b.
Proof.
  induction a as [|c a IH]; [reflexivity|].
  simpl append. rewrite !one_line_cons, IH. apply andb_assoc.
Qed.

Lemma field_value_one_line name kwargs v :
  Forall (fun kv => one_line (snd kv) = true) kwargs ->
  field_value name kwargs = Ret v -> one_line v = true.
Proof.
  intros Hall H. unfold field_value in H.
  destruct name; [discriminate|].
  destruct (any _ _); [discriminate|].
  destruct (all_chars _ _); [discriminate|].
  apply dict_get_in in H.
  rewrite Forall_forall in Hall. exact (Hall _ H).
Qed.

(** Filling a template that has no line feed with values that have none
    gives a text that has none. *)
Lemma format_from_one_line kwargs :
  Forall (fun kv => one_line (snd kv) = true) kwargs ->
  forall n tpl field r,
    String.length tpl <= n ->
    one_line tpl = true ->
    format_from tpl kwargs field = Ret r ->
    one_line r = true.
Proof.
  intros Hall. induction n as [|n IH]; intros tpl field r Hn Htpl H.
  - destruct tpl; [|simpl in Hn; lia].
    destruct field; simpl in H; [discriminate|]. now injection H as <-.
  - destruct tpl as [|c rest].
    { destruct field; simpl in H; [discriminate|]. now injection H as <-. }
    rewrite one_line_cons in Htpl. apply andb_true_iff in Htpl as [Hc Hrest].
    simpl in Hn. destruct field as [name|]; simpl in H.
    + destruct (Ascii.eqb c "}").
      * destruct (field_value name kwargs) as [v|] eqn:Hv; [|discriminate].
        simpl in H.
        destruct (format_from rest kwargs None) as [r'|] eqn:Hr; [|discriminate].
        injection H as <-. rewrite one_line_app.
        rewrite (field_value_one_line _ _ _ Hall Hv).
        by_IH IH.
      * destruct (Ascii.eqb c "{"); [discriminate|].
        by_IH IH.
    + destruct (Ascii.eqb c "{").
      * destruct rest as [|c' rest']; [discriminate|].
        destruct (Ascii.eqb c' "{").
        -- destruct (format_from rest' kwargs None) as [r'|] eqn:Hr; [|discriminate].
           injection H as <-. rewrite one_line_cons.
           rewrite one_line_cons in Hrest. apply andb_true_iff in Hrest as [_ Hrest'].
           simpl in Hn. apply andb_true_iff. split; [reflexivity|].
           by_IH IH.
        -- by_IH IH.
      * destruct (Ascii.eqb c "}").
        -- destruct rest as [|c' rest']; [discriminate|].
           destruct (Ascii.eqb c' "}"); [|discriminate].
           destruct (format_from rest' kwargs None) as [r'|] eqn:Hr; [|discriminate].
           injection H as <-. rewrite one_line_cons.
           rewrite one_line_cons in Hrest. apply andb_true_iff in Hrest as [_ Hrest'].
           simpl in Hn. apply andb_true_iff. split; [reflexivity|].
           by_IH IH.
        -- destruct (format_from rest kwargs None) as [r'|] eqn:Hr; [|discriminate].
           injection H as <-. rewrite one_line_cons, Hc.
           by_IH IH.
Qed.

Lemma last_char_app a b c : last_char b = Some c -> last_char (a ++ b) = Some c.
Proof.
  intros H. induction a as [|x a IH]; [exact H|].
  simpl append. destruct (a ++ b) eqn:E; [discriminate|].
  exact IH.
Qed.

Lemma last_char_cons x s c : last_char s = Some c -> last_char (String x s) = Some c.
Proof. apply (last_char_app (String x "")). Qed.

(** A template that ends in a plain character fills into a text that ends
    in the same character. *)
Lemma format_from_last_char kwargs c :
  Ascii.eqb c "{" = false -> Ascii.eqb c "}" = false ->
  forall n tpl field r,
    String.length tpl <= n ->
    last_char tpl = Some c ->
    format_from tpl kwargs field = Ret r ->
    last_char r = Some c.
Proof.
  intros Hopen Hclose. induction n as [|n IH]; intros tpl field r Hn Hlast H.
  - destruct tpl; [discriminate|simpl in Hn; lia].
  - destruct tpl as [|c0 rest]; [discriminate|].
    simpl in Hn.
    assert (Hrest : rest = "" /\ c0 = c \/ last_char rest = Some c).
    { destruct rest; [left; split; [reflexivity|now injection Hlast]|right; exact Hlast]. }
    destruct field as [name|]; simpl in H.
    + destruct (Ascii.eqb c0 "}") eqn:E0.
      * destruct (field_value name kwargs) as [v|]; [|discriminate]. simpl in H.
        destruct (format_from rest kwargs None) as [r'|] eqn:Hr; [|discriminate].
        injection H as <-.
        destruct Hrest as [[-> ->]|Hrest]; [congruence|].
        apply last_char_app. by_IH IH.
      * destruct (Ascii.eqb c0 "{"); [discriminate|].
        destruct Hrest as [[-> ->]|Hrest]; [discriminate|].
        by_IH IH.
    + destruct (Ascii.eqb c0 "{") eqn:E0.
      * destruct rest as [|c' rest']; [discriminate|].
        destruct Hrest as [[? _]|Hrest]; [discriminate|].
        destruct (Ascii.eqb c' "{") eqn:E1.
        -- destruct (format_from rest' kwargs None) as [r'|] eqn:Hr; [|discriminate].
           injection H as <-. simpl in Hn.
           destruct rest' as [|c'' rest''].
           ++ injection Hrest as <-. congruence.
           ++ apply last_char_cons. by_IH IH.
        -- by_IH IH.
      * destruct (Ascii.eqb c0 "}") eqn:E1.
        -- destruct rest as [|c' rest']; [discriminate|].
           destruct Hrest as [[? _]|Hrest]; [discriminate|].
           destruct (Ascii.eqb c' "}") eqn:E2; [|discriminate].
           destruct (format_from rest' kwargs None) as [r'|] eqn:Hr; [|discriminate].
           injection H as <-. simpl in Hn.
           destruct rest' as [|c'' rest''].
           ++ injection Hrest as <-. congruence.
           ++ apply last_char_cons. by_IH IH.
        -- destruct (format_from rest kwargs None) as [r'|] eqn:Hr; [|discriminate].
           injection H as <-.
           destruct Hrest as [[-> ->]|Hrest].
           ++ simpl in Hr. now injection Hr as <-.
           ++ apply last_char_cons. by_IH IH.
Qed.

(** [s.split("\n")] of a text without a line feed is the text alone. *)
Lemma split_lines_one_line s : one_line s = true -> split_lines s = [s].
Proof.
  induction s as [|c s IH]; [reflexivity|].
  rewrite one_line_cons. intros H. apply andb_true_iff in H as [Hc Hs].
  simpl. apply negb_true_iff in Hc. rewrite Hc, (IH Hs). reflexivity.
Qed.

Lemma split_lines_app a b :
  one_line a = true -> split_lines (a ++ nl ++ b) = a :: split_lines b.
Proof.
  induction a as [|c a IH]; intros H.
  - simpl. reflexivity.
  - rewrite one_line_cons in H. apply andb_true_iff in H as [Hc Ha].
    apply negb_true_iff in Hc.
    simpl append. simpl split_lines. rewrite Hc.
    simpl append in IH. rewrite (IH Ha). reflexivity.
Qed.

Lemma one_line_str_uint d : one_line (NilZero.string_of_uint d) = true.
Proof.
  assert (H : forall u, one_line (NilEmpty.string_of_uint u) = true)
    by (intros u;
        induction u as [|u IH|u IH|u IH|u IH|u IH|u IH|u IH|u IH|u IH|u IH];
        [reflexivity|..]; simpl NilEmpty.string_of_uint;
        rewrite one_line_cons, IH; reflexivity).
  destruct d; [reflexivity|..]; unfold NilZero.string_of_uint; apply H.
Qed.

(** The decimal text of an [int] has no line feed. *)
Lemma one_line_str_int n : one_line (str_int n) = true.
Proof.
  unfold str_int, NilZero.string_of_int.
  destruct (Z.to_int n); [|rewrite one_line_cons]; rewrite one_line_str_uint; reflexivity.
Qed.

End FormatFacts.

(** ** Facts about the tables *)

Section TableFacts.

Lemma supported_cases l :
  dict_in l translations = true -> l = "en" \/ l = "ta" \/ l = "te".
Proof.
  unfold dict_in. cbn [existsb translations fst]. intros H.
  repeat (apply orb_true_iff in H as [H|H];
          [apply String.eqb_eq in H; subst l; auto|]).
  discriminate.
Qed.

Lemma reply_language_cases language :
  reply_language language = "en" \/ reply_language language = "ta"
  \/ reply_language language = "te".
Proof.
  unfold reply_language. destruct (dict_in language translations) eqn:E; auto.
  now apply supported_cases.
Qed.

Lemma reply_language_supported language :
  dict_in (reply_language language) translations = true.
Proof. destruct (reply_language_cases language) as [-> | [-> | ->]]; reflexivity. Qed.

Lemma reply_language_unsupported language :
  dict_in language translations = false -> reply_language language = "en".
Proof. unfold reply_language. now intros ->. Qed.

(** No template of [translations] holds a line feed. *)
Lemma templates_one_line l name tpl : tr l name = Ret tpl -> one_line tpl = true.
Proof.
  assert (Hall : forallb (fun t => forallb (fun kv => one_line (snd kv)) (snd t))
                   translations = true) by (vm_compute; reflexivity).
  unfold tr. destruct (dict_get translations l) as [t|] eqn:Ht; [|discriminate].
  simpl. intros H. apply dict_get_in in Ht, H.
  rewrite forallb_forall in Hall. specialize (Hall _ Ht).
  rewrite forallb_forall in Hall. exact (Hall _ H).
Qed.

Lemma tr_format_one_line l name kwargs r :
  Forall (fun kv => one_line (snd kv) = true) kwargs ->
  tr_format l name kwargs = Ret r -> one_line r = true.
Proof.
  intros Hall. unfold tr_format.
  destruct (tr l name) as [tpl|] eqn:Ht; [|discriminate]. simpl. intros H.
  eapply format_from_one_line; eauto using templates_one_line.
Qed.

Lemma tr_format_last_char l name kwargs tpl c r :
  tr l name = Ret tpl -> last_char tpl = Some c ->
  Ascii.eqb c "{" = false -> Ascii.eqb c "}" = false ->
  tr_format l name kwargs = Ret r -> last_char r = Some c.
Proof.
  intros Ht Hc Ho Hcl. unfold tr_format. rewrite Ht. simpl. intros H.
  eapply format_from_last_char; eauto.
Qed.

(** Every alias scan answers with a value of the table. *)
Lemma scan_aliases_in aliases msg key :
  scan_aliases aliases msg = Some key ->
  exists alias, In (alias, key) aliases /\ str_in alias msg = true.
Proof.
  induction aliases as [|[a k] rest IH]; simpl; [discriminate|].
  destruct (str_in a msg) eqn:E.
  - intros [= <-]. exists a. auto.
  - intros H. destruct (IH H) as (alias & Hin & Hs). exists alias. auto.
Qed.

Lemma scan_aliases_truthy msg key :
  scan_aliases location_aliases msg = Some key -> truthy key = true.
Proof.
  intros H. apply scan_aliases_in in H as (alias & Hin & _).
  simpl in Hin.
  repeat (destruct Hin as [Hin|Hin];
          [apply (f_equal snd) in Hin; simpl in Hin; subst key; reflexivity|]).
  contradiction.
Qed.

Lemma tr_supported l name :
  dict_in l translations = true ->
  In name ["greeting"; "tds_def"; "bod_def"; "cod_def"; "ph_def"; "def_error";
           "unknown_request"] ->
  exists r, tr l name = Ret r.
Proof.
  intros Hl Hn. apply supported_cases in Hl.
  destruct Hl as [-> | [-> | ->]]; simpl in Hn;
    repeat (destruct Hn as [<-|Hn]; [eexists; reflexivity|]); contradiction.
Qed.

Lemma no_data_supported l location :
  dict_in l translations = true ->
  exists r, tr_format l "no_data" [("location", location)] = Ret r.
Proof.
  intros Hl. apply supported_cases in Hl.
  destruct Hl as [-> | [-> | ->]]; eexists; reflexivity.
Qed.

(** The aliases a scan of [location_aliases] can answer with: an alias
    that extends an earlier one never wins. *)
Lemma scan_aliases_reachable msg key :
  scan_aliases location_aliases msg = Some key ->
  In key ["Salem"; "Puducherry"; "Kumbakonam Town"; "Kanchipuram"; "Karaikal";
          "Viluppuram"; "Villupuram"].
Proof.
  unfold location_aliases. simpl scan_aliases.
  destruct (str_in "salem" msg) eqn:Hsalem; [intros [= <-]; in_list|].
  destruct (str_in "salem (extended)" msg) eqn:Hsalem2.
  { intros _. exfalso. apply (eq_true_false_abs (str_in "salem" msg));
      [exact (str_in_prefix "salem" " (extended)" msg Hsalem2)|assumption]. }
  destruct (str_in "puducherry" msg); [intros [= <-]; in_list|].
  destruct (str_in "kumbakonam" msg); [intros [= <-]; in_list|].
  destruct (str_in "kumbakonam town" msg); [intros [= <-]; in_list|].
  destruct (str_in "kanchipuram" msg) eqn:Hkanchi; [intros [= <-]; in_list|].
  destruct (str_in "kanchipuram town" msg) eqn:Hkanchi2.
  { intros _. exfalso. apply (eq_true_false_abs (str_in "kanchipuram" msg));
      [exact (str_in_prefix "kanchipuram" " town" msg Hkanchi2)|assumption]. }
  destruct (str_in "karaikal" msg) eqn:Hkaraikal; [intros [= <-]; in_list|].
  destruct (str_in "karaikal town" msg) eqn:Hkaraikal2.
  { intros _. exfalso. apply (eq_true_false_abs (str_in "karaikal" msg));
      [exact (str_in_prefix "karaikal" " town" msg Hkaraikal2)|assumption]. }
  destruct (str_in "viluppuram" msg); [intros [= <-]; in_list|].
  destruct (str_in "villupuram" msg); [intros [= <-]; in_list|].
  discriminate.
Qed.

(** A message without ["hi"] holds no alias of Kanchipuram. *)
Lemma scan_aliases_without_hi msg key :
  str_in "hi" msg = false ->
  scan_aliases location_aliases msg = Some key ->
  In key ["Salem"; "Puducherry"; "Kumbakonam Town"; "Karaikal";
          "Viluppuram"; "Villupuram"].
Proof.
  intros Hhi H. pose proof (scan_aliases_reachable _ _ H) as Hin.
  assert (Hneq : key <> "Kanchipuram").
  { intros ->. apply scan_aliases_in in H as (alias & Hal & Hs).
    assert (Hsub : str_in "hi" alias = true).
    { simpl in Hal.
      repeat (destruct Hal as [Hal|Hal];
              [pose proof (f_equal fst Hal) as Ha; pose proof (f_equal snd Hal) as Hk;
               simpl in Ha, Hk; subst alias;
               first [discriminate Hk | reflexivity]|]).
      contradiction. }
    apply (eq_true_false_abs (str_in "hi" msg));
      [exact (str_in_trans _ _ _ Hsub Hs)|assumption]. }
  simpl in Hin.
  repeat (destruct Hin as [<-|Hin]; [first [congruence | in_list]|]).
  contradiction.
Qed.

End TableFacts.

Section ServiceFacts.

Variable float : Type.
Variable str_float : float -> string.
Variable db : list (Row.t float).
Variable generate_content : string -> pyresult string.
Variable reverse_geocode : float -> float -> pyresult (list (option string)).

Local Abbreviation generate_reply := (generate_reply float str_float).
Local Abbreviation get_record_by_location := (get_record_by_location float db).
Local Abbreviation handle_query := (handle_query float str_float db generate_content).
Local Abbreviation handle_location_query :=
  (handle_location_query float str_float db reverse_geocode).

(** With a supported language [generate_reply] returns, whatever the
    query type. *)
Lemma generate_reply_supported rec l query_type :
  dict_in l translations = true ->
  exists r, generate_reply rec l query_type = Ret r.
Proof.
  intros Hl. apply supported_cases in Hl. unfold generate_reply.
  destruct (String.eqb query_type "level");
    [|destruct (String.eqb query_type "quality");
      [|destruct (String.eqb query_type "status")]];
    destruct Hl as [-> | [-> | ->]]; eexists; reflexivity.
Qed.

Lemma get_record_by_location_some location rec :
  get_record_by_location location = Some rec ->
  In rec db /\ matches_location location rec.
Proof.
  unfold get_record_by_location, query_db.
  destruct (filter _ db) as [|row rows] eqn:E; [discriminate|].
  intros [= <-].
  assert (Hin : In row (filter
    (fun row => String.eqb (sqlite_lower (Row.location row)) (sqlite_lower location)) db))
    by (rewrite E; now left).
  apply filter_In in Hin as [Hin Heq]. apply String.eqb_eq in Heq. now split.
Qed.


(** The first branch of [handle_query]: a greeting token in the
    normalized message decides the reply. *)
Lemma handle_query_greeting message language :
  any (fun k => str_in k (strip (lower message))) ["hi"; "hello"; "hey"] = true ->
  exists g,
    tr (reply_language language) "greeting" = Ret g /\
    handle_query message language = Ret [("reply", g)].
Proof.
  intros H.
  destruct (tr_supported (reply_language language) "greeting"
              (reply_language_supported language)) as [g Hg]; [simpl; auto|].
  exists g. split; [exact Hg|].
  unfold handle_query. cbv zeta.
  change (if dict_in language translations then language else "en")
    with (reply_language language).
  rewrite H, Hg. reflexivity.
Qed.

(** When [handle_query] answers with a ["location"], the message has no
    greeting token, an alias of the table occurs in it, and the location is
    that of the first row the alias's key selects. *)
Lemma handle_query_location message language out l :
  handle_query message language = Ret out ->
  dict_get out "location" = Ret l ->
  exists key rec,
    any (fun k => str_in k (strip (lower message))) ["hi"; "hello"; "hey"] = false /\
    scan_aliases location_aliases (strip (lower message)) = Some key /\
    get_record_by_location key = Some rec /\
    l = Row.location rec.
Proof.
  unfold handle_query. cbv zeta.
  change (if dict_in language translations then language else "en")
    with (reply_language language).
  set (msg := strip (lower message)). set (lang := reply_language language).
  assert (Hno : forall (m : pyresult string) (o : dict string),
             (r <- m ;; Ret [("reply", r)]) = Ret o ->
             dict_get o "location" = Ret l -> False).
  { intros [r|e] o; simpl; [|discriminate]. intros [= <-]. discriminate. }
  destruct (any _ ["hi"; "hello"; "hey"]) eqn:Hgreet; [intros H1 H2; destruct (Hno _ _ H1 H2)|].
  destruct (any _ ["what is"; "define"; "meaning of"; "what does"]).
  { destruct (str_in "tds" msg); [intros H1 H2; destruct (Hno _ _ H1 H2)|].
    destruct (str_in "bod" msg); [intros H1 H2; destruct (Hno _ _ H1 H2)|].
    destruct (str_in "cod" msg); [intros H1 H2; destruct (Hno _ _ H1 H2)|].
    destruct (str_in "ph" msg); intros H1 H2; destruct (Hno _ _ H1 H2). }
  destruct (scan_aliases location_aliases msg) as [key|] eqn:Hscan;
    [|intros H1 H2; destruct (Hno _ _ H1 H2)].
  simpl if_truthy. rewrite (scan_aliases_truthy _ _ Hscan).
  destruct (get_record_by_location key) as [rec|] eqn:Hrec;
    [|intros H1 H2; destruct (Hno _ _ H1 H2)].
  destruct (generate_reply rec lang (query_type_of msg)) as [r|e]; simpl; [|discriminate].
  intros [= <-]. simpl. intros [= <-].
  exists key, rec. auto.
Qed.

End ServiceFacts.

(** ** Totality of the endpoints *)

Section Totality.

Variable float : Type.
Variable str_float : float -> string.
Variable db : list (Row.t float).
Variable generate_content : string -> pyresult string.
Variable reverse_geocode : float -> float -> pyresult (list (option string)).

Local Abbreviation generate_reply := (generate_reply float str_float).
Local Abbreviation get_llm_response := (get_llm_response generate_content).
Local Abbreviation handle_query := (handle_query float str_float db generate_content).
Local Abbreviation handle_location_query :=
  (handle_location_query float str_float db reverse_geocode).

Local Ltac reply_by_tr name :=
  let r := fresh "r" in
  let Hr := fresh "Hr" in
  match goal with
  | |- context [tr (reply_language ?l) name] =>
      destruct (tr_supported _ name (reply_language_supported l)) as [r Hr];
      [in_list|];
      rewrite Hr; simpl; eexists; reflexivity
  end.

Lemma dict_get_not_in {V} (d : dict V) k :
  dict_in k d = false -> dict_get d k = Raise (KeyError k).
Proof.
  unfold dict_in. induction d as [|[k' v] d IH]; simpl; [reflexivity|].
  destruct (String.eqb k' k); [discriminate|]. exact IH.
Qed.

(** Left to itself, [generate_reply] has no default language. *)
Lemma generate_reply_unsupported rec language query_type :
  dict_in language translations = false ->
  generate_reply rec language query_type = Raise (KeyError language).
Proof.
  intros H. unfold generate_reply, tr_format, tr.
  rewrite (dict_get_not_in _ _ H). simpl.
  repeat match goal with |- context [if ?b then _ else _] => destruct b end;
    reflexivity.
Qed.

Lemma get_llm_response_returns prompt : exists s, get_llm_response prompt = Ret s.
Proof.
  unfold get_llm_response, try_except.
  destruct (generate_content prompt); eexists; reflexivity.
Qed.

(** [handle_query] returns a JSON object for every message and every
    language code. *)
Lemma handle_query_total message language :
  exists out, handle_query message language = Ret out.
Proof.
  unfold handle_query. cbv zeta.
  change (if dict_in language translations then language else "en")
    with (reply_language language).
  set (msg := strip (lower message)).
  destruct (any _ ["hi"; "hello"; "hey"]); [reply_by_tr "greeting"|].
  destruct (any _ ["what is"; "define"; "meaning of"; "what does"]).
  { destruct (str_in "tds" msg); [reply_by_tr "tds_def"|].
    destruct (str_in "bod" msg); [reply_by_tr "bod_def"|].
    destruct (str_in "cod" msg); [reply_by_tr "cod_def"|].
    destruct (str_in "ph" msg); [reply_by_tr "ph_def"|reply_by_tr "def_error"]. }
  destruct (if_truthy (scan_aliases location_aliases msg)) as [location|].
  - destruct (get_record_by_location float db location) as [rec|].
    + destruct (generate_reply_supported float str_float rec _ (query_type_of msg)
                  (reply_language_supported language)) as [r Hr].
      rewrite Hr. simpl. eexists; reflexivity.
    + destruct (no_data_supported _ location (reply_language_supported language))
        as [r Hr].
      rewrite Hr. simpl. eexists; reflexivity.
  - match goal with |- context [get_llm_response ?p] =>
      destruct (get_llm_response_returns p) as [s Hs]; rewrite Hs end.
    simpl. eexists; reflexivity.
Qed.

Lemma handle_location_query_total latitude longitude language :
  exists out, handle_location_query latitude longitude language = Ret out.
Proof.
  unfold handle_location_query. cbv zeta.
  change (if dict_in language translations then language else "en")
    with (reply_language language).
  destruct (if_truthy _) as [location_name|].
  - destruct (get_record_by_location float db location_name) as [rec|].
    + destruct (generate_reply_supported float str_float rec _ "full"
                  (reply_language_supported language)) as [r Hr].
      rewrite Hr. simpl. eexists; reflexivity.
    + destruct (no_data_supported _ location_name (reply_language_supported language))
        as [r Hr].
      rewrite Hr. simpl. eexists; reflexivity.
  - reply_by_tr "unknown_request".
Qed.

End Totality.

(** ** The alias scan in general *)

Section AliasScan.

Variable aliases : dict string.
Variable msg : string.

Local Abbreviation misses :=
  (Forall (fun kv : string * string => str_in (fst kv) msg = false)).

Lemma scan_aliases_none : scan_aliases aliases msg = None <-> misses aliases.
Proof.
  induction aliases as [|[a k] rest IH]; simpl.
  - split; auto.
  - destruct (str_in a msg) eqn:E; split.
    + discriminate.
    + intros H. inversion H; subst. simpl in *. congruence.
    + intros H. constructor; [exact E|now apply IH].
    + intros H. inversion H; subst. now apply IH.
Qed.

Lemma scan_aliases_some key :
  scan_aliases aliases msg = Some key <->
  exists before alias after,
    aliases = (before ++ (alias, key) :: after)%list /\
    str_in alias msg = true /\ misses before.
Proof.
  induction aliases as [|[a k] rest IH]; simpl.
  - split; [discriminate|]. intros (before & alias & after & H & _).
    destruct before; discriminate.
  - destruct (str_in a msg) eqn:E; split.
    + intros [= <-]. exists [], a, rest. auto.
    + intros (before & alias & after & H & Hal & Hmiss).
      destruct before as [|[a' k'] before]; simpl in H.
      * injection H as -> -> _. reflexivity.
      * injection H as -> -> _. inversion Hmiss; subst. simpl in *. congruence.
    + intros H. apply IH in H as (before & alias & after & -> & Hal & Hmiss).
      exists ((a, k) :: before), alias, after. repeat split; auto.
    + intros (before & alias & after & H & Hal & Hmiss).
      destruct before as [|[a' k'] before]; simpl in H.
      * injection H as -> -> _. congruence.
      * injection H as -> -> ->. inversion Hmiss; subst.
        apply IH. exists before, alias, after. auto.
Qed.

End AliasScan.

(** ** Facts about the report endpoint's checks *)

Section ReportFacts.







End ReportFacts.

(** ** Properties of the specification *)

Section Properties.

Variable float : Type.
Variable str_float : float -> string.
Variable db : list (Row.t float).
Variable generate_content : string -> pyresult string.
Variable reverse_geocode : float -> float -> pyresult (list (option string)).
Variable workbook_save : Workbook float -> string + string.

Local Abbreviation generate_reply := (generate_reply float str_float).
Local Abbreviation get_record_by_location := (get_record_by_location float db).
Local Abbreviation get_llm_response := (get_llm_response generate_content).
Local Abbreviation handle_query := (handle_query float str_float db generate_content).
Local Abbreviation handle_location_query :=
  (handle_location_query float str_float db reverse_geocode).
Local Abbreviation get_report := (get_report float str_float db workbook_save).

Local Ltac enter_handle_query language :=
  unfold handle_query; cbv zeta;
  change (if dict_in language translations then language else "en")
    with (reply_language language).

(** C1.  A message whose lowercased, trimmed form contains one of the
    greeting tokens "hi", "hello", "hey" is answered with the greeting of
    the reply language, whatever else the message contains and whatever
    the table and the language model hold. *)
Theorem greeting_has_priority message language :
  any (fun k => str_in k (strip (lower message))) ["hi"; "hello"; "hey"] = true ->
  exists g,
    tr (reply_language language) "greeting" = Ret g /\
    handle_query message language = Ret [("reply", g)].
Proof. apply handle_query_greeting. Qed.

(** C2.  A message without a greeting token that contains a definition
    trigger is answered with the definition of the first of TDS, BOD, COD,
    pH that occurs in it, and with the definition error when none occurs;
    the table and the language model play no part. *)
Theorem definition_request_answer message language :
  any (fun k => str_in k (strip (lower message))) ["hi"; "hello"; "hey"] = false ->
  any (fun k => str_in k (strip (lower message)))
      ["what is"; "define"; "meaning of"; "what does"] = true ->
  exists d,
    tr (reply_language language) (definition_template (strip (lower message))) = Ret d /\
    handle_query message language = Ret [("reply", d)].
Proof.
  intros Hgreet Htrigger.
  enter_handle_query language. rewrite Hgreet, Htrigger.
  set (msg := strip (lower message)).
  unfold definition_template, definition_terms. cbn [find fst snd].
  assert (Hsup := reply_language_supported language).
  destruct (str_in "tds" msg);
    [|destruct (str_in "bod" msg);
      [|destruct (str_in "cod" msg); [|destruct (str_in "ph" msg)]]];
    cbn [snd];
    match goal with
    | |- exists d, tr _ ?name = _ /\ _ =>
        let d := fresh "d" in
        let Hd := fresh "Hd" in
        destruct (tr_supported _ name Hsup) as [d Hd]; [in_list|];
        exists d; rewrite Hd; split; reflexivity
    end.
Qed.

(** C3.  In the data-query branch with a record found, the query type is
    that of the first group, in the order level, quality, status, one of
    whose tokens occurs in the message, and the full report when no token
    occurs; the reply is [generate_reply] at that one type. *)
Theorem query_type_first_group message language key rec :
  any (fun k => str_in k (strip (lower message))) ["hi"; "hello"; "hey"] = false ->
  any (fun k => str_in k (strip (lower message)))
      ["what is"; "define"; "meaning of"; "what does"] = false ->
  scan_aliases location_aliases (strip (lower message)) = Some key ->
  get_record_by_location key = Some rec ->
  query_type_of (strip (lower message)) = first_matching_group (strip (lower message)) /\
  In (first_matching_group (strip (lower message))) ["level"; "quality"; "status"; "full"] /\
  exists r,
    generate_reply rec (reply_language language)
      (first_matching_group (strip (lower message))) = Ret r /\
    handle_query message language = Ret [("reply", r); ("location", Row.location rec)].
Proof.
  intros Hgreet Htrigger Hscan Hrec.
  set (msg := strip (lower message)) in *.
  assert (Hq : query_type_of msg = first_matching_group msg).
  { unfold query_type_of, first_matching_group, query_type_groups, any.
    cbn [find fst snd].
    repeat match goal with |- context [existsb ?p ?l] =>
             destruct (existsb p l); try reflexivity end. }
  split; [exact Hq|]. split.
  { rewrite <- Hq. unfold query_type_of.
    repeat match goal with |- context [if ?b then _ else _] => destruct b end;
      in_list. }
  destruct (generate_reply_supported float str_float rec _ (first_matching_group msg)
              (reply_language_supported language)) as [r Hr].
  exists r. split; [exact Hr|].
  enter_handle_query language. fold msg.
  rewrite Hgreet, Htrigger, Hscan. simpl if_truthy.
  rewrite (scan_aliases_truthy _ _ Hscan).
  rewrite Hrec, Hq, Hr. reflexivity.
Qed.

(** C4.  The alias scan answers with the key of the first alias of
    [location_aliases], in the order of the table, that occurs in the
    message, and with no match exactly when no alias occurs in it. *)
Theorem alias_scan_first_match msg :
  (forall key,
      scan_aliases location_aliases msg = Some key <->
      exists before alias after,
        location_aliases = (before ++ (alias, key) :: after)%list /\
        str_in alias msg = true /\
        Forall (fun kv => str_in (fst kv) msg = false) before) /\
  (scan_aliases location_aliases msg = None <->
   Forall (fun kv => str_in (fst kv) msg = false) location_aliases).
Proof.
  split.
  - intros key. apply scan_aliases_some.
  - apply scan_aliases_none.
Qed.

Lemma date_template_ends_in_stop language :
  dict_in language translations = true ->
  exists tpl, tr language "full_report_date" = Ret tpl /\ last_char tpl = Some "."%char.
Proof.
  intros Hl. apply supported_cases in Hl.
  destruct Hl as [-> | [-> | ->]]; eexists; split; reflexivity.
Qed.

Lemma split_lines_join lines :
  lines <> [] -> Forall (fun l => one_line l = true) lines ->
  split_lines (join nl lines) = lines.
Proof.
  induction lines as [|p rest IH]; [congruence|]. intros _ Hall.
  inversion Hall as [|? ? Hp Hrest]; subst.
  destruct rest as [|q rest].
  - simpl. now apply split_lines_one_line.
  - change (join nl (p :: q :: rest)) with (p ++ nl ++ join nl (q :: rest)).
    rewrite (split_lines_app _ _ Hp), IH; [reflexivity|discriminate|assumption].
Qed.

(** The full report is the eight localized lines, title, level, pH, TDS,
    COD, BOD, status, date, joined by single line feeds, and it ends in a
    full stop; this holds for every record. *)
Lemma full_report_joined rec language :
  dict_in language translations = true ->
  exists title level ph tds cod bod status date,
    tr_format language "full_report_title" [("location", Row.location rec)] = Ret title /\
    tr_format language "full_report_level"
      [("level", str_float (Row.groundwater_level rec))] = Ret level /\
    tr_format language "full_report_ph" [("ph", str_float (Row.pH rec))] = Ret ph /\
    tr_format language "full_report_tds" [("tds", str_int (Row.TDS rec))] = Ret tds /\
    tr_format language "full_report_cod" [("cod", str_float (Row.COD rec))] = Ret cod /\
    tr_format language "full_report_bod" [("bod", str_float (Row.BOD rec))] = Ret bod /\
    tr_format language "full_report_status" [("status", Row.status rec)] = Ret status /\
    tr_format language "full_report_date" [("date", Row.last_updated rec)] = Ret date /\
    generate_reply rec language "full"
    = Ret (join nl [title; level; ph; tds; cod; bod; status; date]) /\
    last_char (join nl [title; level; ph; tds; cod; bod; status; date]) = Some "."%char.
Proof.
  intros Hl. pose proof (supported_cases _ Hl) as Hcases.
  assert (exists r, tr_format language "full_report_title"
                      [("location", Row.location rec)] = Ret r) as [title Htitle]
    by (destruct Hcases as [-> | [-> | ->]]; eexists; reflexivity).
  assert (exists r, tr_format language "full_report_level"
                      [("level", str_float (Row.groundwater_level rec))] = Ret r)
    as [level Hlevel]
    by (destruct Hcases as [-> | [-> | ->]]; eexists; reflexivity).
  assert (exists r, tr_format language "full_report_ph"
                      [("ph", str_float (Row.pH rec))] = Ret r) as [ph Hph]
    by (destruct Hcases as [-> | [-> | ->]]; eexists; reflexivity).
  assert (exists r, tr_format language "full_report_tds"
                      [("tds", str_int (Row.TDS rec))] = Ret r) as [tds Htds]
    by (destruct Hcases as [-> | [-> | ->]]; eexists; reflexivity).
  assert (exists r, tr_format language "full_report_cod"
                      [("cod", str_float (Row.COD rec))] = Ret r) as [cod Hcod]
    by (destruct Hcases as [-> | [-> | ->]]; eexists; reflexivity).
  assert (exists r, tr_format language "full_report_bod"
                      [("bod", str_float (Row.BOD rec))] = Ret r) as [bod Hbod]
    by (destruct Hcases as [-> | [-> | ->]]; eexists; reflexivity).
  assert (exists r, tr_format language "full_report_status"
                      [("status", Row.status rec)] = Ret r) as [status Hstatus]
    by (destruct Hcases as [-> | [-> | ->]]; eexists; reflexivity).
  assert (exists r, tr_format language "full_report_date"
                      [("date", Row.last_updated rec)] = Ret r) as [date Hdate]
    by (destruct Hcases as [-> | [-> | ->]]; eexists; reflexivity).
  exists title, level, ph, tds, cod, bod, status, date.
  repeat (split; [assumption|]). split.
  - unfold generate_reply.
    change (String.eqb "full" "level") with false.
    change (String.eqb "full" "quality") with false.
    change (String.eqb "full" "status") with false.
    cbv iota.
    rewrite Htitle, Hlevel, Hph, Htds, Hcod, Hbod, Hstatus, Hdate. reflexivity.
  - destruct (date_template_ends_in_stop _ Hl) as (tpl & Htpl & Hstop).
    cbn [join]. repeat apply last_char_app.
    exact (tr_format_last_char _ _ _ _ _ _ Htpl Hstop eq_refl eq_refl Hdate).
Qed.

(** C5, amended.  For a supported language and a record whose values hold
    no line feed, the full report splits at line feeds into exactly eight
    lines, in the order title, level, pH, TDS, COD, BOD, status, date, and
    nothing follows the last line. *)
Theorem full_report_eight_lines rec language :
  dict_in language translations = true ->
  values_one_line str_float rec ->
  exists title level ph tds cod bod status date,
    tr_format language "full_report_title" [("location", Row.location rec)] = Ret title /\
    tr_format language "full_report_level"
      [("level", str_float (Row.groundwater_level rec))] = Ret level /\
    tr_format language "full_report_ph" [("ph", str_float (Row.pH rec))] = Ret ph /\
    tr_format language "full_report_tds" [("tds", str_int (Row.TDS rec))] = Ret tds /\
    tr_format language "full_report_cod" [("cod", str_float (Row.COD rec))] = Ret cod /\
    tr_format language "full_report_bod" [("bod", str_float (Row.BOD rec))] = Ret bod /\
    tr_format language "full_report_status" [("status", Row.status rec)] = Ret status /\
    tr_format language "full_report_date" [("date", Row.last_updated rec)] = Ret date /\
    exists reply,
      generate_reply rec language "full" = Ret reply /\
      reply = join nl [title; level; ph; tds; cod; bod; status; date] /\
      split_lines reply = [title; level; ph; tds; cod; bod; status; date] /\
      List.length (split_lines reply) = 8 /\
      last_char reply = Some "."%char.
Proof.
  intros Hl (Hloc & Hlev & HpH & Hcod' & Hbod' & Hst & Hupd).
  destruct (full_report_joined rec language Hl)
    as (title & level & ph & tds & cod & bod & status & date
        & Htitle & Hlevel & Hph & Htds & Hcod & Hbod & Hstatus & Hdate & Hreply & Hlast).
  exists title, level, ph, tds, cod, bod, status, date.
  repeat (split; [assumption|]).
  exists (join nl [title; level; ph; tds; cod; bod; status; date]).
  assert (Hsplit : split_lines (join nl [title; level; ph; tds; cod; bod; status; date])
                   = [title; level; ph; tds; cod; bod; status; date]).
  { apply split_lines_join; [discriminate|].
    pose proof (one_line_str_int (Row.TDS rec)) as Htds1.
    repeat (apply Forall_cons;
            [match goal with
             | H : tr_format _ _ ?kwargs = Ret ?r |- one_line ?r = true =>
                 refine (tr_format_one_line _ _ kwargs r _ H);
                 apply Forall_cons; [simpl; assumption | apply Forall_nil]
             end|]).
    apply Forall_nil. }
  split; [exact Hreply|]. split; [reflexivity|]. split; [exact Hsplit|].
  split; [now rewrite Hsplit|exact Hlast].
Qed.

(** C6.  A language code outside [translations] is answered as "en" by
    both query endpoints, and both return a JSON object: nothing is
    raised. *)
Theorem unsupported_language_defaults message latitude longitude language :
  dict_in language translations = false ->
  handle_query message language = handle_query message "en" /\
  (exists out, handle_query message language = Ret out) /\
  handle_location_query latitude longitude language
  = handle_location_query latitude longitude "en" /\
  (exists out, handle_location_query latitude longitude language = Ret out).
Proof.
  intros H. split; [|split; [|split]].
  - unfold handle_query. rewrite H. reflexivity.
  - apply handle_query_total.
  - unfold handle_location_query. rewrite H. reflexivity.
  - apply handle_location_query_total.
Qed.

(** C7.  [get_llm_response] returns for every prompt: the text of the
    service when the call succeeds, the fixed apology when it raises; and
    the fallback branch of [handle_query] returns that string as the
    reply. *)
Theorem llm_failure_degrades prompt :
  (exists s, get_llm_response prompt = Ret s) /\
  (forall e, generate_content prompt = Raise e ->
             get_llm_response prompt
             = Ret "I am unable to provide a general response at this moment.") /\
  (forall text, generate_content prompt = Ret text ->
                get_llm_response prompt = Ret text) /\
  (forall message language,
      any (fun k => str_in k (strip (lower message))) ["hi"; "hello"; "hey"] = false ->
      any (fun k => str_in k (strip (lower message)))
          ["what is"; "define"; "meaning of"; "what does"] = false ->
      scan_aliases location_aliases (strip (lower message)) = None ->
      exists s,
        get_llm_response
          ("The user is asking a question in English. The reply must be in "
           ++ reply_language language ++ " and conversational." ++ nl
           ++ "User query: " ++ strip (lower message)) = Ret s /\
        handle_query message language = Ret [("reply", s)]).
Proof.
  split; [apply get_llm_response_returns|]. split; [|split].
  - intros e He. unfold get_llm_response, try_except. now rewrite He.
  - intros text He. unfold get_llm_response, try_except. now rewrite He.
  - intros message language Hgreet Htrigger Hscan.
    match goal with |- exists s, get_llm_response ?p = _ /\ _ =>
      destruct (get_llm_response_returns generate_content p)
        as [s Hs] end.
    exists s. split; [exact Hs|].
    enter_handle_query language.
    rewrite Hgreet, Htrigger, Hscan. cbn [if_truthy].
    rewrite Hs. reflexivity.
Qed.


(** The location [handle_query] answers with is, up to ASCII case, one of
    the keys an alias scan can reach. *)
Lemma handle_query_location_key message language out l :
  handle_query message language = Ret out ->
  dict_get out "location" = Ret l ->
  exists key,
    any (fun k => str_in k (strip (lower message))) ["hi"; "hello"; "hey"] = false /\
    scan_aliases location_aliases (strip (lower message)) = Some key /\
    sqlite_lower l = sqlite_lower key.
Proof.
  intros Hout Hl.
  destruct (handle_query_location float str_float db generate_content _ _ _ _ Hout Hl)
    as (key & rec & Hgreet & Hscan & Hrec & ->).
  exists key. repeat split; try assumption.
  now destruct (get_record_by_location_some float db _ _ Hrec).
Qed.

(** C9.  A message that contains one of the aliases "salem (extended)",
    "kanchipuram town", "karaikal town" contains the shorter alias inserted
    before it, so the scan never answers "Salem (Extended)",
    "Kanchipuram Town" or "Karaikal Town", and [handle_query] never
    answers with the location of one of these three records. *)
Theorem extended_aliases_never_win msg :
  (str_in "salem (extended)" msg = true -> str_in "salem" msg = true) /\
  (str_in "kanchipuram town" msg = true -> str_in "kanchipuram" msg = true) /\
  (str_in "karaikal town" msg = true -> str_in "karaikal" msg = true) /\
  scan_aliases location_aliases msg <> Some "Salem (Extended)" /\
  scan_aliases location_aliases msg <> Some "Kanchipuram Town" /\
  scan_aliases location_aliases msg <> Some "Karaikal Town" /\
  (forall message language out l,
      handle_query message language = Ret out ->
      dict_get out "location" = Ret l ->
      ~ In (sqlite_lower l) ["salem (extended)"; "kanchipuram town"; "karaikal town"]).
Proof.
  assert (Hnot : forall m key,
             scan_aliases location_aliases m = Some key ->
             ~ In (sqlite_lower key)
                 ["salem (extended)"; "kanchipuram town"; "karaikal town"]).
  { intros m key H. apply scan_aliases_reachable in H. simpl in H.
    repeat (destruct H as [<-|H]; [vm_compute; intros [E|[E|[E|[]]]]; discriminate E|]).
    contradiction. }
  split; [exact (str_in_prefix "salem" " (extended)" msg)|].
  split; [exact (str_in_prefix "kanchipuram" " town" msg)|].
  split; [exact (str_in_prefix "karaikal" " town" msg)|].
  split; [intros H; apply (Hnot _ _ H); in_list|].
  split; [intros H; apply (Hnot _ _ H); in_list|].
  split; [intros H; apply (Hnot _ _ H); in_list|].
  intros message language out l Hout Hl.
  destruct (handle_query_location_key _ _ _ _ Hout Hl) as (key & _ & Hscan & ->).
  exact (Hnot _ _ Hscan).
Qed.

(** C10.  A message whose lowercased form contains "hi" is answered with
    the greeting; a message that names Kanchipuram by its alias contains
    "hi", so it is answered with the greeting too; and [handle_query] never
    answers with the location of Kanchipuram's record. *)
Theorem hi_inside_kanchipuram message language :
  (str_in "hi" (lower message) = true ->
   exists g,
     tr (reply_language language) "greeting" = Ret g /\
     handle_query message language = Ret [("reply", g)]) /\
  (str_in "kanchipuram" (strip (lower message)) = true ->
   str_in "hi" (strip (lower message)) = true /\
   exists g,
     tr (reply_language language) "greeting" = Ret g /\
     handle_query message language = Ret [("reply", g)]) /\
  (forall out l,
      handle_query message language = Ret out ->
      dict_get out "location" = Ret l ->
      sqlite_lower l <> "kanchipuram").
Proof.
  assert (Hgreets : str_in "hi" (strip (lower message)) = true ->
                    exists g,
                      tr (reply_language language) "greeting" = Ret g /\
                      handle_query message language = Ret [("reply", g)]).
  { intros H. apply handle_query_greeting.
    unfold any. cbn [existsb]. now rewrite H. }
  split; [|split].
  - intros H. apply Hgreets.
    exact (str_in_strip "hi" _ "h" "i" eq_refl eq_refl eq_refl eq_refl H).
  - intros H.
    assert (Hhi : str_in "hi" (strip (lower message)) = true)
      by exact (str_in_trans "hi" "kanchipuram" _ eq_refl H).
    split; [exact Hhi|exact (Hgreets Hhi)].
  - intros out l Hout Hl.
    destruct (handle_query_location_key _ _ _ _ Hout Hl) as (key & Hgreet & Hscan & ->).
    assert (Hhi : str_in "hi" (strip (lower message)) = false)
      by (apply (any_false_in _ _ "hi" Hgreet); in_list).
    pose proof (scan_aliases_without_hi _ _ Hhi Hscan) as Hin. simpl in Hin.
    repeat (destruct Hin as [<-|Hin]; [discriminate|]).
    contradiction.
Qed.

End Properties.

(** ** The properties at sample inputs *)

Section Samples.

Local Abbreviation generate_reply := (generate_reply Sample.float Sample.str_float).
Local Abbreviation get_record_by_location :=
  (get_record_by_location Sample.float Sample.db).
Local Abbreviation handle_query :=
  (handle_query Sample.float Sample.str_float Sample.db Sample.generate_content).
Local Abbreviation handle_location_query :=
  (handle_location_query Sample.float Sample.str_float Sample.db Sample.reverse_geocode).
Local Abbreviation get_report :=
  (get_report Sample.float Sample.str_float Sample.db Sample.workbook_save).

(** The scenarios of the specification. *)

Example scenario_hello :
  handle_query "hello" "en"
  = Ret [("reply", "Hello! I can tell you about groundwater level, quality (pH/TDS/COD/BOD), and irrigation status. Just ask, e.g., 'groundwater level in Kuppam'")].
Proof. reflexivity. Qed.

Example scenario_level_in_salem :
  handle_query "groundwater level in Salem" "en"
  = Ret [("reply", "Groundwater level in Salem: 12.4 m. Last updated: 2024-01-01.");
         ("location", "Salem")].
Proof. reflexivity. Qed.

Example scenario_what_is_tds :
  handle_query "what is tds" "en"
  = Ret [("reply", "TDS stands for Total Dissolved Solids. It is a measure of the total concentration of dissolved substances in water, which affects its taste and quality.")].
Proof. reflexivity. Qed.

Example scenario_kumbakonam_without_record :
  handle_query "status of kumbakonam" "en"
  = Ret [("reply", "No data found for location: Kumbakonam Town")].
Proof. reflexivity. Qed.

Example scenario_report_unknown_place :
  get_report "UnknownPlace" = Raise (HTTPException 404 "Location not found").
Proof. reflexivity. Qed.

Example scenario_lookup_ignores_case :
  get_record_by_location "SALEM" = Some Sample.salem /\
  get_record_by_location "salem" = Some Sample.salem /\
  get_record_by_location "Salem" = Some Sample.salem.
Proof. repeat split. Qed.

(** C1 at a message that greets and names a location and a sub-type. *)
Lemma greeting_has_priority_witness :
  any (fun k => str_in k (strip (lower "Hello, what is the water level in Salem?")))
      ["hi"; "hello"; "hey"] = true /\
  exists g,
    tr (reply_language "ta") "greeting" = Ret g /\
    handle_query "Hello, what is the water level in Salem?" "ta" = Ret [("reply", g)].
Proof.
  split; [reflexivity|].
  apply (greeting_has_priority Sample.float Sample.str_float Sample.db
           Sample.generate_content "Hello, what is the water level in Salem?" "ta").
  reflexivity.
Defined.

(** C2 at a message that names two terms: TDS is tested first. *)
Lemma definition_request_answer_witness :
  definition_template (strip (lower "What is BOD and TDS?")) = "tds_def" /\
  exists d,
    tr (reply_language "en")
       (definition_template (strip (lower "What is BOD and TDS?"))) = Ret d /\
    handle_query "What is BOD and TDS?" "en" = Ret [("reply", d)].
Proof.
  split; [reflexivity|].
  apply (definition_request_answer Sample.float Sample.str_float Sample.db
           Sample.generate_content "What is BOD and TDS?" "en"); reflexivity.
Defined.

(** C3 at a message with tokens of two groups: level comes first. *)
Lemma query_type_first_group_witness :
  query_type_of (strip (lower "Water quality and level in Salem"))
  = first_matching_group (strip (lower "Water quality and level in Salem")) /\
  In (first_matching_group (strip (lower "Water quality and level in Salem")))
     ["level"; "quality"; "status"; "full"] /\
  exists r,
    generate_reply Sample.salem (reply_language "en")
      (first_matching_group (strip (lower "Water quality and level in Salem"))) = Ret r /\
    handle_query "Water quality and level in Salem" "en"
    = Ret [("reply", r); ("location", Row.location Sample.salem)].
Proof.
  apply (query_type_first_group Sample.float Sample.str_float Sample.db
           Sample.generate_content "Water quality and level in Salem" "en"
           "Salem" Sample.salem); reflexivity.
Defined.

(** C5 as stated fails on a record whose status is written on two
    lines: the English full report then has nine lines. *)
Lemma full_report_status_on_two_lines :
  exists reply,
    generate_reply Sample.salem_two_lines "en" "full" = Ret reply /\
    List.length (split_lines reply) = 9 /\
    List.length (split_lines reply) <> 8.
Proof. eexists. split; [reflexivity|]. split; [reflexivity|discriminate]. Qed.

(** C5, amended, at the Salem record in Telugu. *)
Lemma full_report_eight_lines_witness :
  dict_in "te" translations = true /\
  values_one_line Sample.str_float Sample.salem /\
  exists reply,
    generate_reply Sample.salem "te" "full" = Ret reply /\
    List.length (split_lines reply) = 8 /\
    last_char reply = Some "."%char.
Proof.
  split; [reflexivity|]. split; [repeat split|].
  destruct (full_report_eight_lines Sample.float Sample.str_float Sample.salem "te"
              eq_refl ltac:(repeat split))
    as (title & level & ph & tds & cod & bod & status & date
        & _ & _ & _ & _ & _ & _ & _ & _ & reply & Hreply & _ & _ & Hlen & Hlast).
  exists reply. auto.
Defined.

(** C6 at the language code "fr". *)
Lemma unsupported_language_defaults_witness :
  dict_in "fr" translations = false /\
  handle_query "drinking status in salem" "fr"
  = handle_query "drinking status in salem" "en" /\
  (exists out, handle_query "drinking status in salem" "fr" = Ret out) /\
  handle_location_query "11.66" "78.14" "fr" = handle_location_query "11.66" "78.14" "en" /\
  (exists out, handle_location_query "11.66" "78.14" "fr" = Ret out).
Proof.
  split; [reflexivity|].
  apply (unsupported_language_defaults Sample.float Sample.str_float Sample.db
           Sample.generate_content Sample.reverse_geocode
           "drinking status in salem" "11.66" "78.14" "fr").
  reflexivity.
Defined.

(** C7 with the service out of quota: the reply is the apology. *)
Lemma llm_failure_degrades_witness :
  any (fun k => str_in k (strip (lower "Tell me about aquifers"))) ["hi"; "hello"; "hey"]
  = false /\
  scan_aliases location_aliases (strip (lower "Tell me about aquifers")) = None /\
  handle_query "Tell me about aquifers" "en"
  = Ret [("reply", "I am unable to provide a general response at this moment.")].
Proof.
  split; [reflexivity|]. split; [reflexivity|].
  destruct (llm_failure_degrades Sample.float Sample.str_float Sample.db
              Sample.generate_content
              ("The user is asking a question in English. The reply must be in "
               ++ reply_language "en" ++ " and conversational." ++ nl
               ++ "User query: " ++ strip (lower "Tell me about aquifers")))
    as (_ & Hraise & _ & Hfallback).
  destruct (Hfallback "Tell me about aquifers" "en" eq_refl eq_refl eq_refl)
    as (s & Hs & Hreply).
  rewrite (Hraise (Exception "429 quota exceeded") eq_refl) in Hs.
  injection Hs as <-. exact Hreply.
Defined.

(** C9 at a message that names the extended Salem station. *)
Lemma extended_aliases_never_win_witness :
  str_in "salem (extended)" "level in salem (extended)" = true /\
  str_in "salem" "level in salem (extended)" = true /\
  scan_aliases location_aliases "level in salem (extended)" <> Some "Salem (Extended)" /\
  handle_query "level in salem (extended)" "en"
  = Ret [("reply", "Groundwater level in Salem: 12.4 m. Last updated: 2024-01-01.");
         ("location", "Salem")].
Proof.
  destruct (extended_aliases_never_win Sample.float Sample.str_float Sample.db
              Sample.generate_content "level in salem (extended)")
    as (Hsalem & _ & _ & Hscan & _).
  split; [reflexivity|]. split; [exact (Hsalem eq_refl)|]. split; [exact Hscan|].
  reflexivity.
Defined.

(** C10 at a message that names Kanchipuram. *)
Lemma hi_inside_kanchipuram_witness :
  str_in "hi" (lower "Groundwater level in Kanchipuram") = true /\
  exists g,
    tr (reply_language "en") "greeting" = Ret g /\
    handle_query "Groundwater level in Kanchipuram" "en" = Ret [("reply", g)].
Proof.
  split; [reflexivity|].
  destruct (hi_inside_kanchipuram Sample.float Sample.str_float Sample.db
              Sample.generate_content "Groundwater level in Kanchipuram" "en")
    as (Hgreets & _ & _).
  exact (Hgreets eq_refl).
Defined.

End Samples.

(** ** The folding of SQLite *)

Section AsciiFolding.

Lemma lower_char_idem c : lower_char (lower_char c) = lower_char c.
Proof. destruct c as [[] [] [] [] [] [] [] []]; reflexivity. Qed.

Lemma sqlite_lower_idem s : sqlite_lower (sqlite_lower s) = sqlite_lower s.
Proof.
  unfold sqlite_lower. induction s as [|c s IH]; [reflexivity|].
  simpl. now rewrite lower_char_idem, IH.
Qed.

End AsciiFolding.

(** ** Braces in formatted text *)

Section Braces.

Lemma brace_free_cons c s :
  brace_free (String c s)
  = negb (Ascii.eqb c "{") && negb (Ascii.eqb c "}") && brace_free s.
Proof. reflexivity. Qed.

Lemma brace_free_app a b : brace_free (a ++ b) = brace_free a && brace_free b.
Proof.
  induction a as [|c a IH]; [reflexivity|].
  simpl append. rewrite !brace_free_cons, IH. now rewrite andb_assoc.
Qed.

Lemma plain_template_tail c s : plain_template (String c s) = true -> plain_template s = true.
Proof.
  unfold plain_template. intros H. apply andb_true_iff in H as [H1 H2].
  apply negb_true_iff in H1, H2.
  change (str_in "{{" (String c s)) with (startswith (String c s) "{{" || str_in "{{" s) in H1.
  change (str_in "}}" (String c s)) with (startswith (String c s) "}}" || str_in "}}" s) in H2.
  apply orb_false_iff in H1 as [_ H1]. apply orb_false_iff in H2 as [_ H2].
  now rewrite H1, H2.
Qed.

Lemma plain_template_open c s : plain_template (String "{" (String c s)) = true ->
  Ascii.eqb c "{" = false.
Proof.
  unfold plain_template. intros H. apply andb_true_iff in H as [H1 _].
  apply negb_true_iff in H1.
  destruct (Ascii.eqb c "{") eqn:E; [|reflexivity].
  apply Ascii.eqb_eq in E. subst c. simpl in H1. discriminate.
Qed.

Lemma plain_template_close c s : plain_template (String "}" (String c s)) = true ->
  Ascii.eqb c "}" = false.
Proof.
  unfold plain_template. intros H. apply andb_true_iff in H as [_ H2].
  apply negb_true_iff in H2.
  destruct (Ascii.eqb c "}") eqn:E; [|reflexivity].
  apply Ascii.eqb_eq in E. subst c. simpl in H2. discriminate.
Qed.

Lemma field_value_brace_free name kwargs v :
  Forall (fun kv => brace_free (snd kv) = true) kwargs ->
  field_value name kwargs = Ret v -> brace_free v = true.
Proof.
  intros Hall H. unfold field_value in H.
  destruct name; [discriminate|].
  destruct (any _ _); [discriminate|].
  destruct (all_chars _ _); [discriminate|].
  apply dict_get_in in H.
  rewrite Forall_forall in Hall. exact (Hall _ H).
Qed.

Local Ltac by_IH IH :=
  eapply IH; [ | | eassumption]; [simpl in *; lia | eauto using plain_template_tail].

(** [format] writes a brace only for an escaped brace of the template or
    for a brace of a value. *)
Lemma format_from_brace_free kwargs :
  Forall (fun kv => brace_free (snd kv) = true) kwargs ->
  forall n tpl field r,
    String.length tpl <= n ->
    plain_template tpl = true ->
    format_from tpl kwargs field = Ret r ->
    brace_free r = true.
Proof.
  intros Hall. induction n as [|n IH]; intros tpl field r Hn Htpl H.
  - destruct tpl; [|simpl in Hn; lia].
    destruct field; simpl in H; [discriminate|]. now injection H as <-.
  - destruct tpl as [|c rest].
    { destruct field; simpl in H; [discriminate|]. now injection H as <-. }
    simpl in Hn. pose proof (plain_template_tail _ _ Htpl) as Hrest.
    destruct field as [name|]; simpl in H.
    + destruct (Ascii.eqb c "}").
      * destruct (field_value name kwargs) as [v|] eqn:Hv; [|discriminate].
        simpl in H.
        destruct (format_from rest kwargs None) as [r'|] eqn:Hr; [|discriminate].
        injection H as <-. rewrite brace_free_app.
        rewrite (field_value_brace_free _ _ _ Hall Hv). by_IH IH.
      * destruct (Ascii.eqb c "{"); [discriminate|]. by_IH IH.
    + destruct (Ascii.eqb c "{") eqn:Eopen.
      * apply Ascii.eqb_eq in Eopen. subst c.
        destruct rest as [|c' rest']; [discriminate|].
        rewrite (plain_template_open _ _ Htpl) in H. by_IH IH.
      * destruct (Ascii.eqb c "}") eqn:Eclose.
        -- apply Ascii.eqb_eq in Eclose. subst c.
           destruct rest as [|c' rest']; [discriminate|].
           rewrite (plain_template_close _ _ Htpl) in H. discriminate.
        -- destruct (format_from rest kwargs None) as [r'|] eqn:Hr; [|discriminate].
           injection H as <-. rewrite brace_free_cons, Eopen, Eclose. by_IH IH.
Qed.

(** No template of [translations] has an escaped brace. *)
Lemma templates_plain l name tpl : tr l name = Ret tpl -> plain_template tpl = true.
Proof.
  assert (Hall : forallb (fun t => forallb (fun kv => plain_template (snd kv)) (snd t))
                   translations = true) by (vm_compute; reflexivity).
  unfold tr. destruct (dict_get translations l) as [t|] eqn:Ht; [|discriminate].
  simpl. intros H. apply dict_get_in in Ht, H.
  rewrite forallb_forall in Hall. specialize (Hall _ Ht).
  rewrite forallb_forall in Hall. exact (Hall _ H).
Qed.

Lemma tr_format_brace_free l name kwargs r :
  Forall (fun kv => brace_free (snd kv) = true) kwargs ->
  tr_format l name kwargs = Ret r -> brace_free r = true.
Proof.
  intros Hall. unfold tr_format.
  destruct (tr l name) as [tpl|] eqn:Ht; [|discriminate]. simpl. intros H.
  eapply format_from_brace_free; eauto using templates_plain.
Qed.

Lemma brace_free_str_uint d : brace_free (NilZero.string_of_uint d) = true.
Proof.
  assert (H : forall u, brace_free (NilEmpty.string_of_uint u) = true)
    by (intros u;
        induction u as [|u IH|u IH|u IH|u IH|u IH|u IH|u IH|u IH|u IH|u IH];
        [reflexivity|..]; simpl NilEmpty.string_of_uint;
        rewrite brace_free_cons, IH; reflexivity).
  destruct d; [reflexivity|..]; unfold NilZero.string_of_uint; apply H.
Qed.

Lemma brace_free_str_int n : brace_free (str_int n) = true.
Proof.
  unfold str_int, NilZero.string_of_int.
  destruct (Z.to_int n); [|rewrite brace_free_cons]; rewrite brace_free_str_uint; reflexivity.
Qed.

End Braces.

(** ** The record lookup *)

Section Lookup.

Variable float : Type.
Variable db : list (Row.t float).

Local Abbreviation get_record_by_location := (get_record_by_location float db).

Lemma filter_head {A} (p : A -> bool) (l : list A) x :
  (exists rest, filter p l = x :: rest) <->
  exists before after,
    l = (before ++ x :: after)%list /\ p x = true /\
    Forall (fun y => p y = false) before.
Proof.
  induction l as [|y l IH]; simpl.
  - split; [intros [rest H]; discriminate|].
    intros (before & after & H & _). destruct before; discriminate.
  - destruct (p y) eqn:Hy; split.
    + intros [rest [= -> _]]. exists [], l. auto.
    + intros (before & after & H & Hx & Hb).
      destruct before as [|z before]; simpl in H; injection H as -> ->.
      * eauto.
      * inversion Hb; subst. congruence.
    + intros H. apply IH in H as (before & after & -> & Hx & Hb).
      exists (y :: before), after. auto.
    + intros (before & after & H & Hx & Hb).
      destruct before as [|z before]; simpl in H; injection H as -> ->.
      * congruence.
      * inversion Hb; subst. apply IH. eauto.
Qed.

(** X1.  The lookup answers with the first row, in the order of the table,
    whose location equals the argument up to ASCII case; a later row of the
    same name in another case is never the answer. *)
Theorem lookup_first_matching_row location row :
  get_record_by_location location = Some row <->
  exists before after,
    db = (before ++ row :: after)%list /\
    matches_location location row /\
    Forall (fun r => ~ matches_location location r) before.
Proof.
  unfold get_record_by_location, query_db, matches_location.
  set (p := fun r : Row.t float =>
              String.eqb (sqlite_lower (Row.location r)) (sqlite_lower location)).
  assert (Hhead : (exists rest, filter p db = row :: rest) <->
                  filter p db <> [] /\ match filter p db with
                                       | r :: _ => Some r | [] => None end = Some row).
  { destruct (filter p db) as [|r rest]; split.
    - intros [? H]; discriminate.
    - intros [H _]; congruence.
    - intros [? [= -> _]]. split; [discriminate|reflexivity].
    - intros [_ [= ->]]. eauto. }
  split.
  - intros H.
    assert (Hex : exists rest, filter p db = row :: rest).
    { apply Hhead. split; [|exact H]. destruct (filter p db); discriminate. }
    apply filter_head in Hex as (before & after & Hdb & Hrow & Hbefore).
    exists before, after. split; [exact Hdb|]. split.
    + now apply String.eqb_eq.
    + eapply Forall_impl; [|exact Hbefore]. intros r Hr Heq.
      apply String.eqb_eq in Heq. unfold p in Hr. congruence.
  - intros (before & after & Hdb & Hrow & Hbefore).
    apply Hhead. apply filter_head. exists before, after.
    split; [exact Hdb|]. split.
    + now apply String.eqb_eq.
    + eapply Forall_impl; [|exact Hbefore]. intros r Hr.
      unfold p. destruct (String.eqb _ _) eqn:E; [|reflexivity].
      apply String.eqb_eq in E. contradiction.
Qed.

(** X2.  The lookup does not see the ASCII case of its argument: two
    spellings with the same form under SQLite's [lower()] select the same
    row, and so does that form itself. *)
Theorem lookup_ignores_case a b :
  sqlite_lower a = sqlite_lower b ->
  get_record_by_location a = get_record_by_location b /\
  get_record_by_location (sqlite_lower a) = get_record_by_location b.
Proof.
  intros H. unfold get_record_by_location, query_db.
  now rewrite sqlite_lower_idem, H.
Qed.

End Lookup.

(** ** The reply renderer *)

Section Renderer.

Variable float : Type.
Variable str_float : float -> string.

Local Abbreviation generate_reply := (generate_reply float str_float).

Local Ltac values_ok :=
  repeat (apply Forall_cons; [simpl; assumption|]); apply Forall_nil.

Lemma append_empty_r (s : string) : s ++ "" = s.
Proof. induction s; simpl; congruence. Qed.

(** X3.  With a supported language and a record whose values hold no brace,
    [generate_reply] returns for every query type, and no brace is left in
    the reply: every placeholder of the template has been filled in. *)
Theorem reply_has_no_placeholder rec language query_type :
  dict_in language translations = true ->
  values_brace_free str_float rec ->
  exists r,
    generate_reply rec language query_type = Ret r /\ brace_free r = true.
Proof.
  intros Hl (Hloc & Hlev & HpH & Hcod & Hbod & Hst & Hupd).
  destruct (generate_reply_supported float str_float rec language query_type Hl)
    as [r Hr].
  exists r. split; [exact Hr|].
  pose proof (brace_free_str_int (Row.TDS rec)) as Htds.
  assert (Hfill : forall name kwargs s,
             Forall (fun kv => brace_free (snd kv) = true) kwargs ->
             tr_format language name kwargs = Ret s -> brace_free s = true)
    by (intros; eapply tr_format_brace_free; eassumption).
  unfold generate_reply in Hr.
  destruct (String.eqb query_type "level");
    [|destruct (String.eqb query_type "quality");
      [|destruct (String.eqb query_type "status")]].
  - refine (Hfill _ _ _ _ Hr); values_ok.
  - refine (Hfill _ _ _ _ Hr); values_ok.
  - refine (Hfill _ _ _ _ Hr); values_ok.
  - repeat match type of Hr with
           | (_ <- ?m ;; _) = Ret _ =>
               let s := fresh "line" in
               let Hs := fresh "Hline" in
               destruct m as [s|] eqn:Hs; [|discriminate Hr];
               apply Hfill in Hs; [|values_ok];
               cbn [bind] in Hr
           end.
    injection Hr as <-.
    unfold nl.
    repeat first [rewrite brace_free_app | rewrite brace_free_cons].
    repeat match goal with
           | H : brace_free ?x = true |- context [brace_free ?x] => rewrite H
           end.
    reflexivity.
Qed.

(** X4.  The three one-sentence replies in English, written out. *)
Theorem english_sentences rec :
  generate_reply rec "en" "level"
  = Ret ("Groundwater level in " ++ Row.location rec ++ ": "
         ++ str_float (Row.groundwater_level rec) ++ " m. Last updated: "
         ++ Row.last_updated rec ++ ".") /\
  generate_reply rec "en" "quality"
  = Ret ("Water quality in " ++ Row.location rec ++ ": pH is "
         ++ str_float (Row.pH rec) ++ ", TDS is " ++ str_int (Row.TDS rec)
         ++ " mg/L, COD is " ++ str_float (Row.COD rec) ++ " mg/L, and BOD is "
         ++ str_float (Row.BOD rec) ++ " mg/L. Last updated: "
         ++ Row.last_updated rec ++ ".") /\
  generate_reply rec "en" "status"
  = Ret ("For " ++ Row.location rec ++ ", the water is: " ++ Row.status rec
         ++ ". Last updated: " ++ Row.last_updated rec ++ ".").
Proof. repeat split. Qed.

(** X5.  [generate_reply] itself has no default language: with a language
    code that is not a key of [translations] it raises the [KeyError] of
    that code, for every record and query type. *)
Theorem renderer_has_no_default_language rec language query_type :
  dict_in language translations = false ->
  generate_reply rec language query_type = Raise (KeyError language).
Proof.
  intros H. unfold generate_reply, tr_format, tr.
  rewrite (dict_get_not_in _ _ H). cbn [bind].
  destruct (String.eqb query_type "level");
    [|destruct (String.eqb query_type "quality");
      [|destruct (String.eqb query_type "status")]]; reflexivity.
Qed.

End Renderer.

(** ** The text endpoint *)

Section TextEndpoint.

Variable float : Type.
Variable str_float : float -> string.
Variable db : list (Row.t float).
Variable generate_content : string -> pyresult string.

Local Abbreviation generate_reply := (generate_reply float str_float).
Local Abbreviation get_record_by_location := (get_record_by_location float db).
Local Abbreviation get_llm_response := (get_llm_response generate_content).
Local Abbreviation handle_query := (handle_query float str_float db generate_content).

Local Ltac enter_handle_query language :=
  unfold handle_query; cbv zeta;
  change (if dict_in language translations then language else "en")
    with (reply_language language).

Local Ltac reply_only name :=
  match goal with
  | |- context [tr (reply_language ?l) name] =>
      let r := fresh "r" in
      let Hr := fresh "Hr" in
      destruct (tr_supported _ name (reply_language_supported l)) as [r Hr];
      [in_list|];
      rewrite Hr; exists r; left; reflexivity
  end.

(** X6.  [handle_query] raises nothing: for every message and language code
    it returns an object with a "reply", alone or followed by the
    "location" of a row of the table. *)
Theorem answer_shape message language :
  exists r,
    handle_query message language = Ret [("reply", r)] \/
    exists rec,
      In rec db /\
      handle_query message language
      = Ret [("reply", r); ("location", Row.location rec)].
Proof.
  enter_handle_query language.
  set (msg := strip (lower message)).
  destruct (any _ ["hi"; "hello"; "hey"]); [reply_only "greeting"|].
  destruct (any _ ["what is"; "define"; "meaning of"; "what does"]).
  { destruct (str_in "tds" msg); [reply_only "tds_def"|].
    destruct (str_in "bod" msg); [reply_only "bod_def"|].
    destruct (str_in "cod" msg); [reply_only "cod_def"|].
    destruct (str_in "ph" msg); [reply_only "ph_def"|reply_only "def_error"]. }
  destruct (if_truthy (scan_aliases location_aliases msg)) as [location|].
  - destruct (get_record_by_location location) as [rec|] eqn:Hrec.
    + destruct (generate_reply_supported float str_float rec _ (query_type_of msg)
                  (reply_language_supported language)) as [r Hr].
      rewrite Hr. exists r. right. exists rec. split; [|reflexivity].
      now destruct (get_record_by_location_some float db _ _ Hrec).
    + destruct (no_data_supported _ location (reply_language_supported language))
        as [r Hr].
      rewrite Hr. exists r. left. reflexivity.
  - match goal with |- context [get_llm_response ?p] =>
      destruct (get_llm_response_returns generate_content p) as [s Hs]; rewrite Hs end.
    exists s. left. reflexivity.
Qed.

(** X7.  An answer that carries a "location" comes from the data branch
    alone: the message has no greeting token and no definition trigger, an
    alias occurs in it, the table has a row for the key of the first such
    alias, the location is that row's and the reply is [generate_reply] on
    that row at the query type of the message. *)
Theorem location_answer_origin message language out l :
  handle_query message language = Ret out ->
  dict_get out "location" = Ret l ->
  any (fun k => str_in k (strip (lower message))) ["hi"; "hello"; "hey"] = false /\
  any (fun k => str_in k (strip (lower message)))
      ["what is"; "define"; "meaning of"; "what does"] = false /\
  exists key rec r,
    scan_aliases location_aliases (strip (lower message)) = Some key /\
    get_record_by_location key = Some rec /\
    generate_reply rec (reply_language language)
      (query_type_of (strip (lower message))) = Ret r /\
    l = Row.location rec /\
    out = [("reply", r); ("location", l)].
Proof.
  enter_handle_query language.
  set (msg := strip (lower message)). set (lang := reply_language language).
  assert (Hno : forall (m : pyresult string) (o : dict string),
             (r <- m ;; Ret [("reply", r)]) = Ret o ->
             dict_get o "location" = Ret l -> False).
  { intros [r|e] o; simpl; [|discriminate]. intros [= <-]. discriminate. }
  destruct (any _ ["hi"; "hello"; "hey"]); [intros H1 H2; destruct (Hno _ _ H1 H2)|].
  destruct (any _ ["what is"; "define"; "meaning of"; "what does"]).
  { destruct (str_in "tds" msg); [intros H1 H2; destruct (Hno _ _ H1 H2)|].
    destruct (str_in "bod" msg); [intros H1 H2; destruct (Hno _ _ H1 H2)|].
    destruct (str_in "cod" msg); [intros H1 H2; destruct (Hno _ _ H1 H2)|].
    destruct (str_in "ph" msg); intros H1 H2; destruct (Hno _ _ H1 H2). }
  destruct (scan_aliases location_aliases msg) as [key|] eqn:Hscan;
    [|intros H1 H2; destruct (Hno _ _ H1 H2)].
  simpl if_truthy. rewrite (scan_aliases_truthy _ _ Hscan).
  destruct (get_record_by_location key) as [rec|] eqn:Hrec;
    [|intros H1 H2; destruct (Hno _ _ H1 H2)].
  destruct (generate_reply rec lang (query_type_of msg)) as [r|e] eqn:Hr;
    simpl; [|discriminate].
  intros [= <-]. simpl. intros [= <-].
  split; [reflexivity|]. split; [reflexivity|].
  exists key, rec, r. auto.
Qed.

(** X8.  When an alias occurs in the message and the table has no row for
    its key, the reply is the "no data" sentence of the reply language
    filled with the key of the table, not with the words of the message,
    and the answer carries no "location". *)
Theorem no_data_names_key message language key :
  any (fun k => str_in k (strip (lower message))) ["hi"; "hello"; "hey"] = false ->
  any (fun k => str_in k (strip (lower message)))
      ["what is"; "define"; "meaning of"; "what does"] = false ->
  scan_aliases location_aliases (strip (lower message)) = Some key ->
  get_record_by_location key = None ->
  exists r,
    handle_query message language = Ret [("reply", r)] /\
    (reply_language language = "en" -> r = "No data found for location: " ++ key) /\
    (reply_language language = "ta" -> r = key ++ " இடத்திற்கான தரவு கிடைக்கவில்லை") /\
    (reply_language language = "te" -> r = key ++ " స్థానానికి డేటా కనుగొనబడలేదు").
Proof.
  intros Hgreet Htrigger Hscan Hrec.
  destruct (no_data_supported _ key (reply_language_supported language)) as [r Hr].
  exists r. split.
  - enter_handle_query language.
    rewrite Hgreet, Htrigger, Hscan. simpl if_truthy.
    rewrite (scan_aliases_truthy _ _ Hscan), Hrec, Hr. reflexivity.
  - repeat split; intros Hlang; rewrite Hlang in Hr; cbv in Hr.
    all: injection Hr as <-.
    + rewrite <- (append_empty_r key) at 2. reflexivity.
    + reflexivity.
    + reflexivity.
Qed.

End TextEndpoint.

Section Independence.

Variable float : Type.
Variable str_float : float -> string.
Variable db db' : list (Row.t float).
Variable generate_content generate_content' : string -> pyresult string.

(** X10.  The language model is consulted in the fallback branch only: a
    message with a greeting token, a definition trigger or an alias gets the
    same answer whatever the model does. *)
Theorem language_model_only_in_fallback message language :
  any (fun k => str_in k (strip (lower message))) ["hi"; "hello"; "hey"] = true \/
  any (fun k => str_in k (strip (lower message)))
      ["what is"; "define"; "meaning of"; "what does"] = true \/
  scan_aliases location_aliases (strip (lower message)) <> None ->
  handle_query float str_float db generate_content message language
  = handle_query float str_float db generate_content' message language.
Proof.
  intros H. unfold handle_query. cbv zeta.
  set (msg := strip (lower message)) in *.
  destruct (any _ ["hi"; "hello"; "hey"]); [reflexivity|].
  destruct (any _ ["what is"; "define"; "meaning of"; "what does"]); [reflexivity|].
  destruct (scan_aliases location_aliases msg) as [key|] eqn:Hscan.
  - simpl if_truthy. rewrite (scan_aliases_truthy _ _ Hscan). reflexivity.
  - destruct H as [H|[H|H]]; [discriminate|discriminate|congruence].
Qed.

(** X11.  The table is consulted in the data branch only: a message with a
    greeting token or a definition trigger, or without any alias, gets the
    same answer whatever the table holds. *)
Theorem table_only_in_data_branch message language :
  any (fun k => str_in k (strip (lower message))) ["hi"; "hello"; "hey"] = true \/
  any (fun k => str_in k (strip (lower message)))
      ["what is"; "define"; "meaning of"; "what does"] = true \/
  scan_aliases location_aliases (strip (lower message)) = None ->
  handle_query float str_float db generate_content message language
  = handle_query float str_float db' generate_content message language.
Proof.
  intros H. unfold handle_query. cbv zeta.
  set (msg := strip (lower message)) in *.
  destruct (any _ ["hi"; "hello"; "hey"]); [reflexivity|].
  destruct (any _ ["what is"; "define"; "meaning of"; "what does"]); [reflexivity|].
  destruct H as [H|[H|H]]; [discriminate|discriminate|].
  rewrite H. reflexivity.
Qed.

End Independence.

(** ** The coordinates endpoint *)

Section Coordinates.

Variable float : Type.
Variable str_float : float -> string.
Variable db : list (Row.t float).
Variable reverse_geocode : float -> float -> pyresult (list (option string)).

Local Abbreviation generate_reply := (generate_reply float str_float).
Local Abbreviation get_record_by_location := (get_record_by_location float db).
Local Abbreviation find_location_from_coords :=
  (find_location_from_coords float reverse_geocode).
Local Abbreviation handle_location_query :=
  (handle_location_query float str_float db reverse_geocode).

Lemma aliases_lowercase :
  Forall (fun kv : string * string => lower (fst kv) = fst kv) location_aliases.
Proof. repeat (constructor; [vm_compute; reflexivity|]). constructor. Qed.

Lemma scan_component_lowercase aliases text :
  Forall (fun kv : string * string => lower (fst kv) = fst kv) aliases ->
  scan_component aliases (Some text) = Ret (scan_aliases aliases (lower text)).
Proof.
  induction aliases as [|[a k] rest IH]; intros Hall; [reflexivity|].
  inversion Hall as [|? ? Ha Hrest]; subst. simpl in Ha |- *.
  rewrite Ha. destruct (str_in a (lower text)); [reflexivity|]. now apply IH.
Qed.

(** X12.  On a geocoding result that has address components, the inner loop
    of [find_location_from_coords] is the alias scan of [handle_query] run
    on the lowercased text of the components; on a result without them it
    raises the [KeyError]. *)
Theorem component_scan_is_alias_scan :
  (forall text,
      scan_component location_aliases (Some text)
      = Ret (scan_aliases location_aliases (lower text))) /\
  scan_component location_aliases None = Raise (KeyError "address_components").
Proof.
  split; [|reflexivity].
  intros text. apply scan_component_lowercase, aliases_lowercase.
Qed.

Lemma scan_components_some results key :
  scan_components results = Ret (Some key) <->
  exists before text after,
    results = (before ++ Some text :: after)%list /\
    Forall names_no_alias before /\
    scan_aliases location_aliases (lower text) = Some key.
Proof.
  induction results as [|c rest IH].
  - split; [discriminate|]. intros (before & text & after & H & _).
    destruct before; discriminate.
  - cbn [scan_components]. destruct c as [text|].
    + rewrite (scan_component_lowercase _ text aliases_lowercase). cbn [bind].
      destruct (scan_aliases location_aliases (lower text)) as [k|] eqn:Hscan; split.
      * intros [= <-]. exists [], text, rest. auto.
      * intros (before & text' & after & H & Hb & Hk).
        destruct before as [|c before]; simpl in H; injection H as H1 H2.
        -- subst. congruence.
        -- subst c. inversion Hb as [|? ? (t & Ht & Hnone) _]; subst.
           injection Ht as <-. congruence.
      * intros H. apply IH in H as (before & text' & after & -> & Hb & Hk).
        exists (Some text :: before), text', after.
        split; [reflexivity|]. split; [|exact Hk].
        constructor; [exists text; auto|exact Hb].
      * intros (before & text' & after & H & Hb & Hk).
        destruct before as [|c before]; simpl in H; injection H as H1 H2.
        -- subst. congruence.
        -- subst. inversion Hb; subst. apply IH. exists before, text', after. auto.
    + split; [discriminate|].
      intros (before & text' & after & H & Hb & Hk).
      destruct before as [|c before]; simpl in H; [discriminate|].
      injection H as <- _. inversion Hb as [|? ? (t & Ht & _) _]. discriminate.
Qed.

Lemma find_location_unfold latitude longitude :
  find_location_from_coords latitude longitude
  = match reverse_geocode latitude longitude with
    | Ret results =>
        match scan_components results with
        | Ret found => found
        | Raise _ => None
        end
    | Raise _ => None
    end.
Proof.
  unfold find_location_from_coords.
  destruct (reverse_geocode latitude longitude) as [[|c rest]|e]; try reflexivity.
  cbn [bind try_except]. destruct (scan_components (c :: rest)); reflexivity.
Qed.

(** X13.  [find_location_from_coords] answers a key exactly when the
    geocoder returns results of which the first that contains an alias
    has that key as the key of its first alias, every result before it
    having address components. *)
Theorem coordinates_first_result_wins latitude longitude key :
  find_location_from_coords latitude longitude = Some key <->
  exists before text after,
    reverse_geocode latitude longitude = Ret (before ++ Some text :: after)%list /\
    Forall names_no_alias before /\
    scan_aliases location_aliases (lower text) = Some key.
Proof.
  rewrite find_location_unfold. split.
  - destruct (reverse_geocode latitude longitude) as [results|e]; [|discriminate].
    destruct (scan_components results) as [found|e] eqn:Hscan; [|discriminate].
    intros ->. apply scan_components_some in Hscan
      as (before & text & after & -> & Hb & Hk).
    exists before, text, after. auto.
  - intros (before & text & after & -> & Hb & Hk).
    assert (H : scan_components (before ++ Some text :: after) = Ret (Some key))
      by (apply scan_components_some; exists before, text, after; auto).
    now rewrite H.
Qed.

(** X14.  A result without address components ends the search with no
    location when no result before it contains an alias, whatever the
    results after it hold: the [KeyError] is caught with all the rest. *)
Theorem coordinates_malformed_result latitude longitude before after :
  reverse_geocode latitude longitude = Ret (before ++ None :: after)%list ->
  Forall names_no_alias before ->
  find_location_from_coords latitude longitude = None.
Proof.
  intros Hgeo Hb. rewrite find_location_unfold, Hgeo.
  assert (H : scan_components (before ++ None :: after)
              = Raise (KeyError "address_components")).
  { clear Hgeo.
    induction Hb as [|c before (text & -> & Hnone) _ IH]; [reflexivity|].
    cbn [app scan_components].
    rewrite (scan_component_lowercase _ text aliases_lowercase), Hnone.
    exact IH. }
  now rewrite H.
Qed.

(** X15.  By coordinates as by text, the keys "Salem (Extended)",
    "Kanchipuram Town" and "Karaikal Town" are never found; unlike the text
    endpoint, "Kanchipuram" can be. *)
Theorem coordinates_reachable_keys latitude longitude key :
  find_location_from_coords latitude longitude = Some key ->
  In key ["Salem"; "Puducherry"; "Kumbakonam Town"; "Kanchipuram"; "Karaikal";
          "Viluppuram"; "Villupuram"].
Proof.
  rewrite find_location_unfold.
  destruct (reverse_geocode latitude longitude) as [results|e]; [|discriminate].
  destruct (scan_components results) as [found|e] eqn:Hscan; [|discriminate].
  intros ->. apply scan_components_some in Hscan as (_ & text & _ & _ & _ & Hk).
  exact (scan_aliases_reachable _ _ Hk).
Qed.

(** X16.  When the geocoder raises or returns no result, the coordinates
    endpoint raises nothing and answers with the "unknown request" sentence
    of the reply language. *)
Theorem geocoder_failure_is_unknown_request latitude longitude language :
  (exists e, reverse_geocode latitude longitude = Raise e) \/
  reverse_geocode latitude longitude = Ret [] ->
  exists u,
    tr (reply_language language) "unknown_request" = Ret u /\
    handle_location_query latitude longitude language = Ret [("reply", u)].
Proof.
  intros H.
  assert (Hnone : find_location_from_coords latitude longitude = None).
  { rewrite find_location_unfold. destruct H as [[e ->]| ->]; reflexivity. }
  destruct (tr_supported (reply_language language) "unknown_request"
              (reply_language_supported language)) as [u Hu]; [in_list|].
  exists u. split; [exact Hu|].
  unfold handle_location_query. cbv zeta.
  change (if dict_in language translations then language else "en")
    with (reply_language language).
  rewrite Hnone. cbn [if_truthy]. rewrite Hu. reflexivity.
Qed.

(** X17.  When a location is found by coordinates, the answer is the full
    report of the first matching row with that row's location, whatever the
    coordinates suggest about level, quality or status; without a matching
    row it is the "no data" sentence for the key. *)
Theorem coordinates_answer latitude longitude language key :
  find_location_from_coords latitude longitude = Some key ->
  match get_record_by_location key with
  | Some rec =>
      exists r,
        generate_reply rec (reply_language language) "full" = Ret r /\
        handle_location_query latitude longitude language
        = Ret [("reply", r); ("location", Row.location rec)]
  | None =>
      exists r,
        tr_format (reply_language language) "no_data" [("location", key)] = Ret r /\
        handle_location_query latitude longitude language = Ret [("reply", r)]
  end.
Proof.
  intros Hfind.
  assert (Htruthy : truthy key = true).
  { pose proof (coordinates_reachable_keys _ _ _ Hfind) as Hin. simpl in Hin.
    repeat (destruct Hin as [<-|Hin]; [reflexivity|]). contradiction. }
  unfold handle_location_query. cbv zeta.
  change (if dict_in language translations then language else "en")
    with (reply_language language).
  rewrite Hfind. cbn [if_truthy]. rewrite Htruthy.
  destruct (get_record_by_location key) as [rec|].
  - destruct (generate_reply_supported float str_float rec _ "full"
                (reply_language_supported language)) as [r Hr].
    exists r. split; [exact Hr|]. rewrite Hr. reflexivity.
  - destruct (no_data_supported _ key (reply_language_supported language)) as [r Hr].
    exists r. split; [exact Hr|]. rewrite Hr. reflexivity.
Qed.

End Coordinates.

(** ** The further properties at sample inputs *)

Section MoreSamples.

Local Abbreviation generate_reply := (generate_reply Sample.float Sample.str_float).
Local Abbreviation find_location_from_coords :=
  (find_location_from_coords Sample.float).
Local Abbreviation handle_location_query :=
  (handle_location_query Sample.float Sample.str_float Sample.db).

(** X1 on a table with "Salem" before "SALEM": every spelling selects the
    first of the two rows. *)
Lemma lookup_first_matching_row_witness :
  get_record_by_location Sample.float Sample2.db "SALEM" = Some Sample.salem /\
  get_record_by_location Sample.float Sample2.db "SALEM" <> Some Sample2.salem_upper.
Proof.
  assert (H : get_record_by_location Sample.float Sample2.db "SALEM" = Some Sample.salem).
  { apply (lookup_first_matching_row Sample.float Sample2.db "SALEM" Sample.salem).
    exists [], [Sample2.salem_upper]. repeat split. constructor. }
  split; [exact H|]. rewrite H. discriminate.
Defined.

Lemma lookup_ignores_case_witness :
  sqlite_lower "SALEM" = sqlite_lower "Salem" /\
  get_record_by_location Sample.float Sample.db "SALEM"
  = get_record_by_location Sample.float Sample.db "Salem".
Proof.
  split; [reflexivity|].
  exact (proj1 (lookup_ignores_case Sample.float Sample.db "SALEM" "Salem" eq_refl)).
Defined.

Lemma reply_has_no_placeholder_witness :
  dict_in "ta" translations = true /\
  values_brace_free Sample.str_float Sample.salem /\
  exists r, generate_reply Sample.salem "ta" "quality" = Ret r /\ brace_free r = true.
Proof.
  split; [reflexivity|]. split; [repeat split|].
  apply (reply_has_no_placeholder Sample.float Sample.str_float Sample.salem "ta" "quality");
    [reflexivity|repeat split].
Defined.

Lemma location_answer_origin_witness :
  handle_query Sample.float Sample.str_float Sample.db Sample.generate_content
    "Level in Salem" "en"
  = Ret [("reply", "Groundwater level in Salem: 12.4 m. Last updated: 2024-01-01.");
         ("location", "Salem")] /\
  exists key rec,
    scan_aliases location_aliases (strip (lower "Level in Salem")) = Some key /\
    get_record_by_location Sample.float Sample.db key = Some rec /\
    "Salem" = Row.location rec.
Proof.
  split; [reflexivity|].
  destruct (location_answer_origin Sample.float Sample.str_float Sample.db
              Sample.generate_content "Level in Salem" "en" _ "Salem" eq_refl eq_refl)
    as (_ & _ & key & rec & r & Hscan & Hrec & _ & Hloc & _).
  exists key, rec. auto.
Defined.

Lemma no_data_names_key_witness :
  get_record_by_location Sample.float Sample.db "Kumbakonam Town" = None /\
  handle_query Sample.float Sample.str_float Sample.db Sample.generate_content
    "Status of kumbakonam" "en"
  = Ret [("reply", "No data found for location: Kumbakonam Town")].
Proof.
  split; [reflexivity|].
  destruct (no_data_names_key Sample.float Sample.str_float Sample.db
              Sample.generate_content "Status of kumbakonam" "en" "Kumbakonam Town"
              eq_refl eq_refl eq_refl eq_refl) as (r & Hreply & Hen & _).
  rewrite Hreply, (Hen eq_refl). reflexivity.
Defined.

Lemma language_model_only_in_fallback_witness :
  scan_aliases location_aliases (strip (lower "Report for Puducherry")) <> None /\
  handle_query Sample.float Sample.str_float Sample.db Sample.generate_content
    "Report for Puducherry" "en"
  = handle_query Sample.float Sample.str_float Sample.db Sample2.generate_content
      "Report for Puducherry" "en".
Proof.
  split; [discriminate|].
  apply (language_model_only_in_fallback Sample.float Sample.str_float Sample.db
           Sample.generate_content Sample2.generate_content "Report for Puducherry" "en").
  right. right. discriminate.
Defined.

Lemma table_only_in_data_branch_witness :
  any (fun k => str_in k (strip (lower "Define COD for Salem")))
      ["what is"; "define"; "meaning of"; "what does"] = true /\
  handle_query Sample.float Sample.str_float Sample.db Sample.generate_content
    "Define COD for Salem" "en"
  = handle_query Sample.float Sample.str_float Sample2.db Sample.generate_content
      "Define COD for Salem" "en".
Proof.
  split; [reflexivity|].
  apply (table_only_in_data_branch Sample.float Sample.str_float Sample.db Sample2.db
           Sample.generate_content "Define COD for Salem" "en").
  right. left. reflexivity.
Defined.

(** X13 and X15: the second result names "Kanchipuram Town"; the key found
    is "Kanchipuram", which the text endpoint never reaches. *)
Lemma coordinates_first_result_wins_witness :
  find_location_from_coords Sample2.reverse_geocode "12.83" "79.70" = Some "Kanchipuram".
Proof.
  apply (coordinates_first_result_wins Sample.float Sample2.reverse_geocode
           "12.83" "79.70" "Kanchipuram").
  exists [Some "[{'long_name': 'Tamil Nadu', 'types': ['administrative_area_level_1']}]"],
         "[{'long_name': 'Kanchipuram Town', 'types': ['locality']}]",
         [Some "[{'long_name': 'Salem', 'types': ['locality']}]"].
  split; [reflexivity|]. split; [|reflexivity].
  constructor; [|constructor]. eexists. split; reflexivity.
Defined.

Lemma coordinates_malformed_result_witness :
  find_location_from_coords Sample2.reverse_geocode_malformed "11.66" "78.14" = None.
Proof.
  apply (coordinates_malformed_result Sample.float Sample2.reverse_geocode_malformed
           "11.66" "78.14" []
           [Some "[{'long_name': 'Salem', 'types': ['locality']}]"]);
    [reflexivity|constructor].
Defined.

Lemma coordinates_reachable_keys_witness :
  find_location_from_coords Sample2.reverse_geocode "12.83" "79.70" = Some "Kanchipuram" /\
  In "Kanchipuram" ["Salem"; "Puducherry"; "Kumbakonam Town"; "Kanchipuram"; "Karaikal";
                    "Viluppuram"; "Villupuram"].
Proof.
  split; [reflexivity|].
  apply (coordinates_reachable_keys Sample.float Sample2.reverse_geocode "12.83" "79.70").
  reflexivity.
Defined.

Lemma geocoder_failure_is_unknown_request_witness :
  handle_location_query Sample2.reverse_geocode_down "11.66" "78.14" "en"
  = Ret [("reply",
          "I'm sorry, I don't understand that request. Could you please rephrase?")].
Proof.
  destruct (geocoder_failure_is_unknown_request Sample.float Sample.str_float Sample.db
              Sample2.reverse_geocode_down "11.66" "78.14" "en"
              (or_introl (ex_intro _ (Exception "geocoding timeout") eq_refl)))
    as (u & Hu & Hreply).
  rewrite Hreply. injection Hu as <-. reflexivity.
Defined.

Lemma coordinates_answer_witness :
  find_location_from_coords Sample.reverse_geocode "11.66" "78.14" = Some "Salem" /\
  exists r,
    generate_reply Sample.salem "en" "full" = Ret r /\
    handle_location_query Sample.reverse_geocode "11.66" "78.14" "en"
    = Ret [("reply", r); ("location", "Salem")].
Proof.
  split; [reflexivity|].
  exact (coordinates_answer Sample.float Sample.str_float Sample.db Sample.reverse_geocode
           "11.66" "78.14" "en" "Salem" eq_refl).
Defined.

Lemma renderer_has_no_default_language_witness :
  dict_in "fr" translations = false /\
  generate_reply Sample.salem "fr" "level" = Raise (KeyError "fr").
Proof.
  split; [reflexivity|].
  apply (renderer_has_no_default_language Sample.float Sample.str_float Sample.salem
           "fr" "level").
  reflexivity.
Defined.

End MoreSamples.

(** ** Texts outside ASCII, locations the report refuses *)

Section OddTexts.

(** Lowering and stripping outside ASCII: U+0130 lowers to "i" and a
    combining dot, the Kelvin sign to "k", a capital sigma at the end of a
    word to the final sigma, and no-break spaces are stripped. *)
Example lower_and_strip_beyond_ascii :
  Unicode.decode (lower Sample2.H_dotted_I) = [104; 105; 775]%N /\
  lower Sample2.kelvin_araikal = "karaikal" /\
  Unicode.decode (lower (Unicode.encode [913; 931; 32; 931; 913]%N))
  = [945; 962; 32; 963; 945]%N /\
  strip Sample2.padded_hello = "hello".
Proof. vm_compute. repeat split. Qed.

(** The text endpoint on such messages: a "hi" that arises by lowering is a
    greeting, before a definition or a location; an alias that arises by
    lowering is found. *)
Example answers_beyond_ascii :
  (exists g,
      tr "en" "greeting" = Ret g /\
      handle_query Sample.float Sample.str_float Sample.db Sample.generate_content
        Sample2.H_dotted_I "en" = Ret [("reply", g)] /\
      handle_query Sample.float Sample.str_float Sample.db Sample.generate_content
        ("what is tds, " ++ Sample2.H_dotted_I) "en" = Ret [("reply", g)] /\
      handle_query Sample.float Sample.str_float Sample.db Sample.generate_content
        ("level in salem " ++ Sample2.H_dotted_I) "en" = Ret [("reply", g)]) /\
  handle_query Sample.float Sample.str_float Sample2.db_coast Sample.generate_content
    ("level in " ++ Sample2.kelvin_araikal) "en"
  = Ret [("reply", "Groundwater level in Karaikal: 6.3 m. Last updated: 2024-02-15.");
         ("location", "Karaikal")].
Proof. split; [eexists; repeat split|]; vm_compute; reflexivity. Qed.



End OddTexts.
